(** * Product model of the product demo service

    A shallow embedding of [service/models.py]: the [Category] enumeration,
    the [Product] record with [serialize] and [deserialize], and the
    persistence helpers [create], [update] and [find_by_price].

    Python values are dynamically typed, so a record field holds a
    [PyValue].  The pieces of the Python runtime the model relies on are
    embedded next to it: binary64 floats with correctly rounded conversions
    ([Float64]), the [decimal] module's text syntax and [quantize]
    ([Decimal]), item access, [getattr] on an enumeration class and the
    exceptions these raise.  Strings are sequences of code points below 256. *)

From Stdlib Require Import ZArith QArith Qpower Qround Qabs Lia Lra Lqa Ascii String.
From stdpp Require Import base option list gmap strings.

#[local] Set Warnings "-register-all".
#[local] Open Scope Z_scope.

(* ================================================================== *)
(** ** Text helpers *)
(* ================================================================== *)

Module Text.

Definition code (c : ascii) : Z := Z.of_N (N_of_ascii c).

Definition is_digit (c : ascii) : bool := (48 <=? code c) && (code c <=? 57).

(** [str.isspace] on code points below 256. *)
Definition is_space (c : ascii) : bool :=
  let n := code c in
  ((9 <=? n) && (n <=? 13)) || ((28 <=? n) && (n <=? 32))
  || (n =? 133) || (n =? 160).

Definition lower (c : ascii) : ascii :=
  let n := code c in
  if (65 <=? n) && (n <=? 90) then ascii_of_N (Z.to_N (n + 32)) else c.

Definition chars (s : string) : list ascii := list_ascii_of_string s.
Definition text (l : list ascii) : string := string_of_list_ascii l.

Fixpoint lstrip (p : ascii -> bool) (l : list ascii) : list ascii :=
  match l with
  | c :: r => if p c then lstrip p r else l
  | [] => []
  end.

(** [s.strip(chars)]: drop the characters satisfying [p] at both ends. *)
Definition strip (p : ascii -> bool) (l : list ascii) : list ascii :=
  rev (lstrip p (rev (lstrip p l))).

Definition is_one_of (set : list ascii) (c : ascii) : bool :=
  existsb (Ascii.eqb c) set.

(** The longest prefix of digits, and what follows it. *)
Fixpoint span_digits (l : list ascii) : list ascii * list ascii :=
  match l with
  | c :: r =>
      if is_digit c
      then let '(ds, rest) := span_digits r in (c :: ds, rest)
      else ([], l)
  | [] => ([], [])
  end.

(** [int(digits)], most significant digit first. *)
Fixpoint digits_value (acc : Z) (l : list ascii) : Z :=
  match l with
  | c :: r => digits_value (10 * acc + (code c - 48)) r
  | [] => acc
  end.

Definition digit_char (d : Z) : ascii := ascii_of_N (Z.to_N (48 + d)).

(** The decimal digits of [n > 0] prepended to [acc]; [fuel] bounds the
    number of digits. *)
Fixpoint digits_of (fuel : nat) (n : Z) (acc : list ascii) : list ascii :=
  match fuel with
  | O => acc
  | S f =>
      let acc' := digit_char (n mod 10) :: acc in
      if n <? 10 then acc' else digits_of f (n / 10) acc'
  end.

(** [str(n)] for an [int]. *)
Definition str_int (n : Z) : string :=
  let ds := digits_of (S (Z.to_nat (Z.log2 (Z.abs n)))) (Z.abs n) [] in
  text (if n <? 0 then "-"%char :: ds else ds).

(** ** Numeric literals

    The syntax shared by [Decimal(text)] and [float(text)], after the
    text has been stripped and lower-cased: a sign, then digits with an
    optional fraction and exponent, or an infinity, or a NaN. *)
Inductive literal :=
| LitFinite (int frac : list ascii) (exp : Z)
| LitInf
| LitNaN (signal : bool) (diag : list ascii).

Definition scan_sign (l : list ascii) : bool * list ascii :=
  match l with
  | c :: r =>
      if Ascii.eqb c "-"%char then (true, r)
      else if Ascii.eqb c "+"%char then (false, r)
      else (false, l)
  | [] => (false, l)
  end.

(** An optional sign and at least one digit, up to the end of the text. *)
Definition scan_exponent (l : list ascii) : option Z :=
  let '(neg, r) := scan_sign l in
  let '(ds, rest) := span_digits r in
  match ds, rest with
  | _ :: _, [] => Some (if neg then - digits_value 0 ds else digits_value 0 ds)
  | _, _ => None
  end.

(** Digits, an optional point and fraction, an optional exponent; the
    mantissa has at least one digit. *)
Definition scan_finite (l : list ascii) : option literal :=
  let '(int, r1) := span_digits l in
  let '(frac, r2) :=
    match r1 with
    | c :: r => if Ascii.eqb c "."%char then span_digits r else ([], r1)
    | [] => ([], r1)
    end in
  match int ++ frac with
  | [] => None
  | _ :: _ =>
      match r2 with
      | [] => Some (LitFinite int frac 0)
      | c :: r3 =>
          if Ascii.eqb c "e"%char then
            match scan_exponent r3 with
            | Some e => Some (LitFinite int frac e)
            | None => None
            end
          else None
      end
  end.

Definition all_digits (l : list ascii) : bool := forallb is_digit l.

(** What follows the prefix [p] in [l], when [l] starts with [p]. *)
Fixpoint strip_prefix (p l : list ascii) : option (list ascii) :=
  match p, l with
  | [], _ => Some l
  | c :: p', d :: l' => if Ascii.eqb c d then strip_prefix p' l' else None
  | _ :: _, [] => None
  end.

(** [inf] or [infinity]; [nan] or [snan] followed by digits. *)
Definition scan_special (l : list ascii) : option literal :=
  match strip_prefix (chars "inf") l with
  | Some [] => Some LitInf
  | Some r =>
      match strip_prefix (chars "inity") r with
      | Some [] => Some LitInf
      | _ => None
      end
  | None =>
      match strip_prefix (chars "nan") l with
      | Some diag => if all_digits diag then Some (LitNaN false diag) else None
      | None =>
          match strip_prefix (chars "snan") l with
          | Some diag => if all_digits diag then Some (LitNaN true diag) else None
          | None => None
          end
      end
  end.

(** A signed literal; [l] is already stripped. *)
Definition scan_number (l : list ascii) : option (bool * literal) :=
  let '(neg, r) := scan_sign (map lower l) in
  match r with
  | c :: _ =>
      let lit :=
        if is_digit c || Ascii.eqb c "."%char
        then scan_finite r else scan_special r in
      match lit with
      | Some t => Some (neg, t)
      | None => None
      end
  | [] => None
  end.

Definition remove_underscores (l : list ascii) : list ascii :=
  List.filter (fun c => negb (Ascii.eqb c "_"%char)) l.

End Text.

(* ================================================================== *)
(** ** Exceptions *)
(* ================================================================== *)

(** The exception classes the model can raise.  [DataValidationError] is
    the service's own; the others belong to the Python runtime, to the
    [decimal] module and to the database layer. *)
Inductive exn :=
| DataValidationError (msg : string)
| KeyError (key : string)
| TypeError (msg : string)
| AttributeError (arg : string)
| ValueError (msg : string)
| OverflowError (msg : string)
| InvalidOperation
| DatabaseError.

Inductive result (A : Type) :=
| Ok (a : A)
| Raise (e : exn).
Arguments Ok {A} a.
Arguments Raise {A} e.

(* ================================================================== *)
(** ** Binary64 floating point *)
(* ================================================================== *)

Module Float64.

(** A float is a NaN, an infinity or [(-1)^neg * m * 2^e].  The values
    produced by the conversions below are normalised: [2^52 <= m < 2^53],
    or [m < 2^52] at the least exponent [min_exp]. *)
Inductive float :=
| Nan
| Inf (neg : bool)
| Fin (neg : bool) (m e : Z).

Definition mant_dig : Z := 53.
Definition min_exp : Z := -1074.
Definition max_exp : Z := 971.

Definition pow2 (e : Z) : Q := (2 ^ e)%Q.
Definition pow10 (e : Z) : Q := (10 ^ e)%Q.

(** The magnitude [m * 2^e] as a rational. *)
Definition magnitude (m e : Z) : Q := (inject_Z m * pow2 e)%Q.

(** Nearest integer, ties to the even one. *)
Definition round_half_even (q : Q) : Z :=
  let f := Qfloor q in
  match Qcompare (q - inject_Z f) (1 # 2) with
  | Lt => f
  | Gt => f + 1
  | Eq => if Z.even f then f else f + 1
  end.

(** [floor (log2 q)] for [q > 0]. *)
Definition floor_log2 (q : Q) : Z :=
  let l := Z.log2 (Qnum q) - Z.log2 (Zpos (Qden q)) in
  if Qle_bool (pow2 l) q then l else l - 1.

(** The float nearest to the magnitude [q >= 0] (round to nearest, ties
    to even), with the given sign; an infinity when the rounded value
    does not fit. *)
Definition nearest (neg : bool) (q : Q) : float :=
  if Qle_bool q 0 then Fin neg 0 min_exp
  else
    let e := Z.max (floor_log2 q - (mant_dig - 1)) min_exp in
    let m := round_half_even (q / pow2 e) in
    let '(m, e) :=
      if m =? 2 ^ mant_dig then (2 ^ (mant_dig - 1), e + 1) else (m, e) in
    if max_exp <? e then Inf neg else Fin neg m e.

(** [float(n)] for an [int]. *)
Definition of_int (n : Z) : result float :=
  match nearest (n <? 0) (inject_Z (Z.abs n)) with
  | Inf _ => Raise (OverflowError "int too large to convert to float")
  | x => Ok x
  end.

(** [abs(x).as_integer_ratio()] for a finite float: the fraction in
    lowest terms, whose denominator is a power of two. *)
Definition as_integer_ratio (m e : Z) : Z * Z :=
  if 0 <=? e then (m * 2 ^ e, 1)
  else let g := Z.gcd m (2 ^ (- e)) in (m / g, 2 ^ (- e) / g).

(** Underscores in [float(text)] stand between two digits. *)
Fixpoint underscores_ok (prev : ascii) (l : list ascii) : bool :=
  match l with
  | [] => negb (Ascii.eqb prev "_"%char)
  | c :: r =>
      (if Ascii.eqb c "_"%char then Text.is_digit prev
       else if Ascii.eqb prev "_"%char then Text.is_digit c else true)
      && underscores_ok c r
  end.

(** [float(text)]. *)
Definition of_string (s : string) : result float :=
  let l := Text.strip Text.is_space (Text.chars s) in
  let bad :=
    Raise (ValueError ("could not convert string to float: '" ++ s ++ "'")) in
  if underscores_ok Ascii.zero l then
    match Text.scan_number (Text.remove_underscores l) with
    | Some (neg, Text.LitFinite int frac exp) =>
        Ok (nearest neg
              (inject_Z (Text.digits_value 0 (int ++ frac))
               * pow10 (exp - Z.of_nat (length frac)))%Q)
    | Some (neg, Text.LitInf) => Ok (Inf neg)
    | Some (neg, Text.LitNaN false []) => Ok Nan
    | _ => bad
    end
  else bad.

(** [round(x, ndigits)] for a float and a small [0 <= ndigits]: the exact
    binary value is rounded to [ndigits] decimals, ties to even, and the
    result is converted back to the nearest float. *)
Definition py_round (x : float) (ndigits : Z) : float :=
  match x with
  | Fin neg m e =>
      let scaled := round_half_even (magnitude m e * pow10 ndigits) in
      nearest neg (inject_Z scaled / pow10 ndigits)%Q
  | _ => x
  end.

End Float64.

(* ================================================================== *)
(** ** The decimal module *)
(* ================================================================== *)

Module Decimal.

(** [Decimal]: sign, coefficient and exponent of a finite number, or a
    special value.  [Finite s c e] is [(-1)^s * c * 10^e]. *)
Inductive decimal :=
| Finite (sign : bool) (coeff : Z) (exp : Z)
| Infinity (sign : bool)
| NaN (sign : bool) (signaling : bool) (diag : Z).

(** The default context. *)
Definition prec : Z := 28.
Definition Emax : Z := 999999.
Definition Emin : Z := -999999.
Definition Etiny : Z := Emin - prec + 1.

(** [Decimal(text)]: the text is stripped, underscores are removed and
    the rest must be a numeric literal. *)
Definition of_string (s : string) : result decimal :=
  let l := Text.remove_underscores (Text.strip Text.is_space (Text.chars s)) in
  match Text.scan_number l with
  | Some (neg, Text.LitFinite int frac exp) =>
      Ok (Finite neg (Text.digits_value 0 (int ++ frac))
                 (exp - Z.of_nat (length frac)))
  | Some (neg, Text.LitInf) => Ok (Infinity neg)
  | Some (neg, Text.LitNaN signal diag) =>
      Ok (NaN neg signal (Text.digits_value 0 diag))
  | None => Raise InvalidOperation
  end.

(** [Decimal.from_float(x)]: the exact value of the float. *)
Definition from_float (x : Float64.float) : decimal :=
  match x with
  | Float64.Nan => NaN false false 0
  | Float64.Inf neg => Infinity neg
  | Float64.Fin neg m e =>
      let '(n, d) := Float64.as_integer_ratio m e in
      let k := Z.log2 d in
      Finite neg (n * 5 ^ k) (- k)
  end.

Fixpoint count_digits (fuel : nat) (c : Z) : Z :=
  match fuel with
  | O => 1
  | S f => if c <? 10 then 1 else 1 + count_digits f (c / 10)
  end.

(** [len(self._int)]: the number of digits of the coefficient. *)
Definition num_digits (c : Z) : Z :=
  count_digits (S (Z.to_nat (Z.log2 c))) c.

(** [self.adjusted()]: the exponent of the leading digit. *)
Definition adjusted (c e : Z) : Z := e + num_digits c - 1.

(** [self._rescale(exp, ROUND_HALF_UP)] for a finite number: when digits
    are dropped, the coefficient goes up by one exactly when the first
    dropped digit is 5 or more. *)
Definition rescale_half_up (sign : bool) (c e exp : Z) : decimal :=
  if c =? 0 then Finite sign 0 exp
  else if exp <=? e then Finite sign (c * 10 ^ (e - exp)) exp
  else
    let digits := num_digits c + e - exp in
    let '(c, digits) := if digits <? 0 then (1, 0) else (c, digits) in
    let dropped := num_digits c - digits in
    let kept := c / 10 ^ dropped in
    let first_dropped := (c / 10 ^ (dropped - 1)) mod 10 in
    Finite sign (if 5 <=? first_dropped then kept + 1 else kept) exp.

(** [self.quantize(exp, rounding=ROUND_HALF_UP)] in the default context. *)
Definition quantize (self exp : decimal) : result decimal :=
  match self, exp with
  | NaN _ true _, _ => Raise InvalidOperation
  | _, NaN _ true _ => Raise InvalidOperation
  | NaN s false d, _ => Ok (NaN s false (d mod 10 ^ prec))
  | _, NaN s false d => Ok (NaN s false (d mod 10 ^ prec))
  | Infinity s, Infinity _ => Ok (Infinity s)
  | Infinity _, _ => Raise InvalidOperation
  | _, Infinity _ => Raise InvalidOperation
  | Finite s c e, Finite _ _ ee =>
      if negb ((Etiny <=? ee) && (ee <=? Emax)) then Raise InvalidOperation
      else if c =? 0 then Ok (Finite s 0 ee)
      else if Emax <? adjusted c e then Raise InvalidOperation
      else if prec <? adjusted c e - ee + 1 then Raise InvalidOperation
      else
        match rescale_half_up s c e ee with
        | Finite s' c' e' =>
            if Emax <? adjusted c' e' then Raise InvalidOperation
            else if prec <? num_digits c' then Raise InvalidOperation
            else Ok (Finite s' c' e')
        | ans => Ok ans
        end
  end.

(** The magnitude of a finite number as a rational. *)
Definition magnitude (c e : Z) : Q := (inject_Z c * Float64.pow10 e)%Q.

(** [Decimal("0.01")]. *)
Definition cent : decimal := Finite false 1 (-2).

(** [float(d)]. *)
Definition to_float (d : decimal) : result Float64.float :=
  match d with
  | Finite s c e => Ok (Float64.nearest s (magnitude c e))
  | Infinity s => Ok (Float64.Inf s)
  | NaN _ true _ => Raise (ValueError "cannot convert signaling NaN to float")
  | NaN _ false _ => Ok Float64.Nan
  end.

(** Numeric equality as the database compares stored prices: finite
    numbers by value, whatever their exponents. *)
Definition eqb (a b : decimal) : bool :=
  match a, b with
  | Finite s1 c1 e1, Finite s2 c2 e2 =>
      let v1 := (if s1 then - magnitude c1 e1 else magnitude c1 e1)%Q in
      let v2 := (if s2 then - magnitude c2 e2 else magnitude c2 e2)%Q in
      Qeq_bool v1 v2
  | Infinity s1, Infinity s2 => Bool.eqb s1 s2
  | NaN _ _ _, NaN _ _ _ => true
  | _, _ => false
  end.

End Decimal.

(* ================================================================== *)
(** ** Python values *)
(* ================================================================== *)

(** [class Category(Enum)]. *)
Inductive Category :=
| UNKNOWN
| CLOTHS
| FOOD
| HOUSEWARES
| AUTOMOTIVE
| TOOLS.

(** The values a mapping, a record field or a class attribute can hold.
    [PyObject cls] is an object of another class (a method, a tuple, a
    class, ...), known by its class only: the model gives it no items and
    no conversion to a number, and its text is no numeric literal. *)
Inductive PyValue :=
| PyNone
| PyBool (b : bool)
| PyInt (n : Z)
| PyFloat (x : Float64.float)
| PyStr (s : string)
| PyList (items : list PyValue)
| PyDict (items : gmap string PyValue)
| PyDecimal (d : Decimal.decimal)
| PyEnum (c : Category)
| PyObject (cls : string).

#[global] Instance result_ret : MRet result := fun _ a => Ok a.
#[global] Instance result_bind : MBind result := fun _ _ f r =>
  match r with
  | Ok a => f a
  | Raise e => Raise e
  end.

(** [type(v).__name__] as it appears in error messages. *)
Definition type_name (v : PyValue) : string :=
  match v with
  | PyNone => "NoneType"
  | PyBool _ => "bool"
  | PyInt _ => "int"
  | PyFloat _ => "float"
  | PyStr _ => "str"
  | PyList _ => "list"
  | PyDict _ => "dict"
  | PyDecimal _ => "decimal.Decimal"
  | PyEnum _ => "Category"
  | PyObject cls => cls
  end.

(** [str(type(v))]. *)
Definition str_type (v : PyValue) : string :=
  match v with
  | PyEnum _ => "<enum 'Category'>"
  | _ => "<class '" ++ type_name v ++ "'>"
  end.

(** [isinstance(v, bool)]. *)
Definition isinstance_bool (v : PyValue) : bool :=
  match v with
  | PyBool _ => true
  | _ => false
  end.

(** [bool(v)], as [not v] tests it. *)
Definition truthy (v : PyValue) : bool :=
  match v with
  | PyNone => false
  | PyBool b => b
  | PyInt n => negb (n =? 0)
  | PyFloat (Float64.Fin _ m _) => negb (m =? 0)
  | PyFloat _ => true
  | PyStr s => negb (String.eqb s "")
  | PyList l => match l with [] => false | _ => true end
  | PyDict d => negb (bool_decide (d = ∅))
  | PyDecimal (Decimal.Finite _ c _) => negb (c =? 0)
  | PyDecimal _ => true
  | PyEnum _ => true
  | PyObject _ => true
  end.

(** [data[key]] for a text key. *)
Definition getitem (data : PyValue) (key : string) : result PyValue :=
  match data with
  | PyDict d =>
      match d !! key with
      | Some v => Ok v
      | None => Raise (KeyError key)
      end
  | PyStr _ => Raise (TypeError "string indices must be integers, not 'str'")
  | PyList _ =>
      Raise (TypeError "list indices must be integers or slices, not str")
  | v => Raise (TypeError ("'" ++ type_name v ++ "' object is not subscriptable"))
  end.

(** [float(v)]. *)
Definition py_float (v : PyValue) : result Float64.float :=
  match v with
  | PyFloat x => Ok x
  | PyInt n => Float64.of_int n
  | PyBool b => Float64.of_int (if b then 1 else 0)
  | PyStr s => Float64.of_string s
  | PyDecimal d => Decimal.to_float d
  | v =>
      Raise (TypeError ("float() argument must be a string or a real number, not '"
                        ++ type_name v ++ "'"))
  end.

(** ** The Category class *)

Definition Category_name (c : Category) : string :=
  match c with
  | UNKNOWN => "UNKNOWN"
  | CLOTHS => "CLOTHS"
  | FOOD => "FOOD"
  | HOUSEWARES => "HOUSEWARES"
  | AUTOMOTIVE => "AUTOMOTIVE"
  | TOOLS => "TOOLS"
  end.

Definition Category_value (c : Category) : Z :=
  match c with
  | UNKNOWN => 0
  | CLOTHS => 1
  | FOOD => 2
  | HOUSEWARES => 3
  | AUTOMOTIVE => 4
  | TOOLS => 5
  end.

Definition Category_members : list Category :=
  [UNKNOWN; CLOTHS; FOOD; HOUSEWARES; AUTOMOTIVE; TOOLS].

(** [Category._member_map_]: the members by name. *)
Definition member_map : gmap string Category :=
  list_to_map (map (fun c => (Category_name c, c)) Category_members).

(** What the class carries besides its members, as CPython 3.11 resolves
    [getattr(Category, name)] through the class, [Enum], [object] and the
    metaclass: first the attributes with a plain value, then the names
    bound to methods and other objects, with the class of that object. *)
Definition class_constants : list (string * PyValue) :=
  [ ("__doc__", PyStr "Enumeration of valid Product Categories");
    ("__module__", PyStr "service.models");
    ("__name__", PyStr "Category");
    ("__qualname__", PyStr "Category");
    ("__annotations__", PyDict ∅);
    ("__text_signature__", PyNone);
    ("__basicsize__", PyInt 24);
    ("__dictoffset__", PyInt (-48));
    ("__flags__", PyInt 546320);
    ("__itemsize__", PyInt 0);
    ("__weakrefoffset__", PyInt 16);
    ("_member_map_", PyDict (PyEnum <$> member_map));
    ("_member_names_", PyList (map (fun c => PyStr (Category_name c)) Category_members));
    ("_unhashable_values_", PyList []);
    ("_use_args_", PyBool false);
    ("_value_repr_", PyNone) ].

Definition class_objects : list (string * string) :=
  [ ("__base__", "EnumType"); ("__bases__", "tuple"); ("__class__", "type");
    ("__dict__", "mappingproxy"); ("__members__", "mappingproxy");
    ("__mro__", "tuple"); ("_member_type_", "type");
    ("_value2member_map_", "dict");
    ("__bool__", "method"); ("__call__", "method"); ("__contains__", "method");
    ("__getattr__", "method"); ("__getitem__", "method"); ("__iter__", "method");
    ("__len__", "method"); ("__prepare__", "method"); ("__reversed__", "method");
    ("_check_for_existing_members_", "method"); ("_convert_", "method");
    ("_create_", "method"); ("_find_data_repr_", "method");
    ("_find_data_type_", "method"); ("_find_new_", "method");
    ("_get_mixins_", "method");
    ("__dir__", "function"); ("__format__", "function"); ("__hash__", "function");
    ("__init__", "function"); ("__new__", "function");
    ("__reduce_ex__", "function"); ("__repr__", "function");
    ("__str__", "function"); ("_generate_next_value_", "function");
    ("__delattr__", "wrapper_descriptor"); ("__eq__", "wrapper_descriptor");
    ("__ge__", "wrapper_descriptor"); ("__getattribute__", "wrapper_descriptor");
    ("__gt__", "wrapper_descriptor"); ("__le__", "wrapper_descriptor");
    ("__lt__", "wrapper_descriptor"); ("__ne__", "wrapper_descriptor");
    ("__setattr__", "wrapper_descriptor");
    ("__getstate__", "method_descriptor"); ("__reduce__", "method_descriptor");
    ("__sizeof__", "method_descriptor");
    ("__or__", "method-wrapper"); ("__ror__", "method-wrapper");
    ("__init_subclass__", "builtin_function_or_method");
    ("__instancecheck__", "builtin_function_or_method");
    ("__subclasscheck__", "builtin_function_or_method");
    ("__subclasses__", "builtin_function_or_method");
    ("__subclasshook__", "builtin_function_or_method");
    ("_new_member_", "builtin_function_or_method");
    ("mro", "builtin_function_or_method") ].

Definition class_namespace : gmap string PyValue :=
  list_to_map (class_constants ++ map (fun '(n, cls) => (n, PyObject cls)) class_objects).

(** [getattr(Category, name)]: a member, another attribute of the class,
    or [AttributeError] with the name as its argument. *)
Definition Category_getattr (name : PyValue) : result PyValue :=
  match name with
  | PyStr s =>
      match member_map !! s with
      | Some c => Ok (PyEnum c)
      | None =>
          match class_namespace !! s with
          | Some v => Ok v
          | None => Raise (AttributeError s)
          end
      end
  | v =>
      Raise (TypeError ("attribute name must be string, not '"
                        ++ type_name v ++ "'"))
  end.

(** [v.name]: the name of an enumeration member; other values have no
    such attribute. *)
Definition getattr_name (v : PyValue) : result PyValue :=
  match v with
  | PyEnum c => Ok (PyStr (Category_name c))
  | v =>
      Raise (AttributeError ("'" ++ type_name v ++ "' object has no attribute 'name'"))
  end.

(* ================================================================== *)
(** ** The Product record *)
(* ================================================================== *)

(** An instance of [class Product]: its six attributes.  Python does not
    check an attribute against its column type on assignment, so each one
    holds any value. *)
Record Product := mkProduct {
  id : PyValue;
  name : PyValue;
  description : PyValue;
  price : PyValue;
  available : PyValue;
  category : PyValue
}.

(** [Product()]: no attribute set yet. *)
Definition new_Product : Product :=
  mkProduct PyNone PyNone PyNone PyNone PyNone PyNone.

(** A method body acts on [self] in place and may raise: the attributes
    assigned before an exception stay assigned. *)
Definition action (A : Type) : Type := Product -> Product * result A.

#[global] Instance action_ret : MRet action := fun _ a self => (self, Ok a).
#[global] Instance action_bind : MBind action := fun _ _ f m self =>
  match m self with
  | (self', Ok a) => f a self'
  | (self', Raise e) => (self', Raise e)
  end.

Definition lift {A} (r : result A) : action A := fun self => (self, r).
Definition raise {A} (e : exn) : action A := fun self => (self, Raise e).

Definition set_id (v : PyValue) : action unit := fun self =>
  (mkProduct v (name self) (description self) (price self) (available self)
     (category self), Ok tt).
Definition set_name (v : PyValue) : action unit := fun self =>
  (mkProduct (id self) v (description self) (price self) (available self)
     (category self), Ok tt).
Definition set_description (v : PyValue) : action unit := fun self =>
  (mkProduct (id self) (name self) v (price self) (available self)
     (category self), Ok tt).
Definition set_price (v : PyValue) : action unit := fun self =>
  (mkProduct (id self) (name self) (description self) v (available self)
     (category self), Ok tt).
Definition set_available (v : PyValue) : action unit := fun self =>
  (mkProduct (id self) (name self) (description self) (price self) v
     (category self), Ok tt).
Definition set_category (v : PyValue) : action unit := fun self =>
  (mkProduct (id self) (name self) (description self) (price self)
     (available self) v, Ok tt).

(** [try: body except ...]: the handler turns the exception of a failed
    body into the one the method raises. *)
Definition try_except {A} (body : action A) (handler : exn -> exn) : action A :=
  fun self =>
    match body self with
    | (self', Raise e) => (self', Raise (handler e))
    | ok => ok
    end.

(** ** serialize *)

(** [Product.serialize]: the six keys, with the price as
    [round(float(self.price), 2)] and the category by name. *)
Definition serialize (self : Product) : result PyValue :=
  x ← py_float (price self);
  c ← getattr_name (category self);
  Ok (PyDict (list_to_map
        [ ("id", id self);
          ("name", name self);
          ("description", description self);
          ("price", PyFloat (Float64.py_round x 2));
          ("available", available self);
          ("category", c) ])).

(** ** deserialize *)

(** The value of [raw_price] as a decimal: [Decimal.from_float(raw_price)]
    for a float, [Decimal(str(raw_price))] otherwise.  The text of a list
    or a dict opens with a bracket and that of another object is no
    numeric literal either; the text of a [Decimal] reads back as
    itself. *)
Definition price_value (raw_price : PyValue) : result Decimal.decimal :=
  match raw_price with
  | PyFloat x => Ok (Decimal.from_float x)
  | PyStr s => Decimal.of_string s
  | PyInt n => Decimal.of_string (Text.str_int n)
  | PyBool b => Decimal.of_string (if b then "True" else "False")
  | PyNone => Decimal.of_string "None"
  | PyEnum c => Decimal.of_string ("Category." ++ Category_name c)
  | PyDecimal d => Ok d
  | PyList _ | PyDict _ | PyObject _ => Raise InvalidOperation
  end.

(** The statements inside [try:]. *)
Definition deserialize_body (data : PyValue) : action unit :=
  v ← lift (getitem data "name");
  set_name v;;
  v ← lift (getitem data "description");
  set_description v;;
  raw_price ← lift (getitem data "price");
  value ← lift (price_value raw_price);
  cent ← lift (Decimal.of_string "0.01");
  quantized ← lift (Decimal.quantize value cent);
  set_price (PyDecimal quantized);;
  flag ← lift (getitem data "available");
  (if isinstance_bool flag
   then v ← lift (getitem data "available"); set_available v
   else
     v ← lift (getitem data "available");
     raise (DataValidationError
              ("Invalid type for boolean [available]: " ++ str_type v)));;
  v ← lift (getitem data "category");
  member ← lift (Category_getattr v);
  set_category member.

(** The [except] clauses: [AttributeError], [KeyError] and [TypeError]
    become [DataValidationError]; any other exception passes through. *)
Definition deserialize_handler (e : exn) : exn :=
  match e with
  | AttributeError arg => DataValidationError ("Invalid attribute: " ++ arg)
  | KeyError key => DataValidationError ("Invalid product: missing " ++ key)
  | TypeError msg =>
      DataValidationError
        ("Invalid product: body of request contained bad or no data " ++ msg)
  | e => e
  end.

(** [Product.deserialize]: the record after the call, and the returned
    record or the exception raised. *)
Definition deserialize (data : PyValue) (self : Product) : Product * result Product :=
  match try_except (deserialize_body data) deserialize_handler self with
  | (self', Ok _) => (self', Ok self')
  | (self', Raise e) => (self', Raise e)
  end.

(* ================================================================== *)
(** ** The record store *)
(* ================================================================== *)

(** A row of the product table, typed by its columns. *)
Record Row := mkRow {
  row_name : string;
  row_description : string;
  row_price : Decimal.decimal;
  row_available : bool;
  row_category : Category
}.

(** The table by primary key, and the next value of the key sequence. *)
Record Database := mkDatabase {
  table : gmap Z Row;
  next_id : Z
}.


Section Store.

(** How the column types turn the attributes of a record into a row,
    or refuse them, when the session writes it. *)
Variable bind : Product -> option Row.

(** [db.session.add(self); db.session.commit()] for a record without a
    key: a row is inserted under the next key of the sequence, which the
    record then carries. *)
Definition insert (self : Product) (db : Database)
  : Product * Database * result unit :=
  match bind self with
  | Some row =>
      let i := next_id db in
      ((set_id (PyInt i) self).1,
       mkDatabase (<[i := row]> (table db)) (i + 1),
       Ok tt)
  | None => (self, db, Raise DatabaseError)
  end.

(** [db.session.commit()] for a record that carries a key: the row
    loaded under that key is rewritten from the record; a record the
    session does not hold writes nothing. *)
Definition commit (self : Product) (db : Database) : Database * result unit :=
  match id self with
  | PyInt i =>
      match table db !! i, bind self with
      | Some _, Some row => (mkDatabase (<[i := row]> (table db)) (next_id db), Ok tt)
      | Some _, None => (db, Raise DatabaseError)
      | None, _ => (db, Ok tt)
      end
  | _ => (db, Ok tt)
  end.

(** [Product.create]. *)
Definition create (self : Product) (db : Database)
  : Product * Database * result unit :=
  let self := (set_id PyNone self).1 in
  insert self db.

(** [Product.update]. *)
Definition update (self : Product) (db : Database) : Database * result unit :=
  if negb (truthy (id self))
  then (db, Raise (DataValidationError "Update called with empty ID field"))
  else commit self db.

End Store.

(** The conversion that accepts exactly the attributes already of the
    column's type. *)
Definition typed_bind (self : Product) : option Row :=
  match name self, description self, price self, available self, category self with
  | PyStr n, PyStr d, PyDecimal p, PyBool a, PyEnum c => Some (mkRow n d p a c)
  | _, _, _, _, _ => None
  end.

(** The argument of [find_by_price]: a [Decimal], or a text. *)
Inductive price_query :=
| PriceDecimal (d : Decimal.decimal)
| PriceText (s : string).

(** The characters stripped by [find_by_price]: a space and a double
    quote. *)
Definition quote_and_space : list ascii := [" "%char; ascii_of_N 34].

(** [Product.find_by_price]: the rows whose price equals the value, by
    key. *)
Definition find_by_price (price : price_query) (db : Database)
  : result (gmap Z Row) :=
  price_value ←
    match price with
    | PriceText s =>
        Decimal.of_string
          (Text.text (Text.strip (Text.is_one_of quote_and_space) (Text.chars s)))
    | PriceDecimal d => Ok d
    end;
  Ok (filter (fun kr : Z * Row => Decimal.eqb (row_price kr.2) price_value = true)
        (table db)).


(** [Product.all]: every row, by key. *)
Definition all (db : Database) : gmap Z Row := table db.

(** [Product.find]: the row under the key, or [None]. *)
Definition find (product_id : Z) (db : Database) : option Row :=
  table db !! product_id.

#[global] Instance Category_eq_dec : EqDecision Category.
Proof. solve_decision. Defined.


(** [Product.find_by_availability]; without an argument, [True]. *)
Definition find_by_availability (available : option bool) (db : Database)
  : gmap Z Row :=
  let available := default true available in
  filter (fun kr : Z * Row => row_available kr.2 = available) (table db).

(** [Product.find_by_category]; without an argument, [Category.UNKNOWN]. *)
Definition find_by_category (category : option Category) (db : Database)
  : gmap Z Row :=
  let category := default UNKNOWN category in
  filter (fun kr : Z * Row => row_category kr.2 = category) (table db).



(* ================================================================== *)
(** ** Reference notions *)
(* ================================================================== *)

(** Rounding a magnitude half up to cents, as the glossary words it:
    the nearest multiple of 0.01, a tie going away from zero. *)
Definition half_up_cents (q : Q) : Z := Qfloor (q * 100 + (1 # 2))%Q.

(** The number a price stands for, as a sign and a magnitude: an [int],
    a finite float, a finite [Decimal], or a text that [Decimal] reads as
    a finite number.  The sign of a float or a [Decimal] is its flag; its
    significand or coefficient is not negative. *)
Definition numeric_value (v : PyValue) : option (bool * Q) :=
  match v with
  | PyInt n => Some (n <? 0, inject_Z (Z.abs n))
  | PyFloat (Float64.Fin s m e) =>
      if 0 <=? m then Some (s, Float64.magnitude m e) else None
  | PyDecimal (Decimal.Finite s c e) =>
      if 0 <=? c then Some (s, Decimal.magnitude c e) else None
  | PyStr t =>
      match Decimal.of_string t with
      | Ok (Decimal.Finite s c e) => Some (s, Decimal.magnitude c e)
      | _ => None
      end
  | _ => None
  end.

(** The float with the given sign nearest to an amount of cents. *)
Definition float_of_cents (s : bool) (cents : Z) : Float64.float :=
  Float64.nearest s (inject_Z cents / 100)%Q.

(* ================================================================== *)
(** ** Inputs and messages used in the statements *)
(* ================================================================== *)

(** A mapping with the five keys [deserialize] reads. *)
Definition product_mapping (n ds p a c : PyValue) : gmap string PyValue :=
  list_to_map
    [ ("name", n); ("description", ds); ("price", p); ("available", a);
      ("category", c) ].

(** The float 12.345, [0x1.8b0a3d70a3d71p+3]: a little above 12.345. *)
Definition float_12_345 : Float64.float :=
  Float64.Fin false 0x18b0a3d70a3d71 (-49).

(** The float 0.125, exactly one eighth. *)
Definition float_0_125 : Float64.float := Float64.Fin false (2 ^ 52) (-55).

Definition is_mapping (v : PyValue) : bool :=
  match v with
  | PyDict _ => true
  | _ => false
  end.

(** The two message shapes of the [TypeError] and [KeyError] clauses. *)
Definition bad_data_prefix : string :=
  "Invalid product: body of request contained bad or no data ".
Definition missing_prefix : string := "Invalid product: missing ".

Definition fedora : Product :=
  mkProduct PyNone (PyStr "Fedora") (PyStr "A red hat")
    (PyDecimal (Decimal.Finite false 1250 (-2))) (PyBool true) (PyEnum CLOTHS).

(** The same record carrying the key of a stored row. *)
Definition fedora_1 : Product :=
  mkProduct (PyInt 1) (PyStr "Fedora") (PyStr "A red hat")
    (PyDecimal (Decimal.Finite false 1250 (-2))) (PyBool true) (PyEnum CLOTHS).

Definition fedora_row : Row :=
  mkRow "Fedora" "A red hat" (Decimal.Finite false 1250 (-2)) true CLOTHS.

Definition one_row : Database := mkDatabase {[ 1 := fedora_row ]} 2.

Definition two_rows : Database :=
  mkDatabase
    {[ 1 := fedora_row;
       2 := mkRow "Scarf" "Wool" (Decimal.Finite false 999 (-2)) true CLOTHS ]} 3.



(** [isinstance(v, str)]. *)
Definition isinstance_str (v : PyValue) : bool :=
  match v with
  | PyStr _ => true
  | _ => false
  end.

(** [isinstance(v, Category)]. *)
Definition is_member (v : PyValue) : bool :=
  match v with
  | PyEnum _ => true
  | _ => false
  end.

(** The keys of the mapping [serialize] builds. *)
Definition serialized_keys : gset string :=
  list_to_set ["id"; "name"; "description"; "price"; "available"; "category"].

(** The number of rows [find_by_category] returns for each member, in
    the order of the members. *)
Definition Category_counts (db : Database) : list nat :=
  map (fun c => size (find_by_category (Some c) db)) Category_members.

(* ================================================================== *)
(** * Properties *)
(* ================================================================== *)

(** ** Correctly rounded conversion to binary64 *)

Module Float64Facts.
Import Float64.
Local Open Scope Q_scope.

Lemma pow2_pos e : 0 < pow2 e.
Proof. unfold pow2. apply Qpower_0_lt. reflexivity. Qed.

Lemma pow2_add a b : pow2 (a + b) == pow2 a * pow2 b.
Proof. unfold pow2. apply Qpower_plus. discriminate. Qed.

Lemma pow2_succ a : pow2 (a + 1) == 2 * pow2 a.
Proof. rewrite pow2_add. unfold pow2 at 2. simpl. ring. Qed.

Lemma pow2_le a b : (a <= b)%Z -> pow2 a <= pow2 b.
Proof. intros. unfold pow2. apply Qpower_le_compat_l; [assumption | discriminate]. Qed.

Lemma pow2_lt a b : (a < b)%Z -> pow2 a < pow2 b.
Proof. intros. unfold pow2. apply Qpower_lt_compat_l; [assumption | reflexivity]. Qed.

Lemma pow2_lt_inv a b : pow2 a < pow2 b -> (a < b)%Z.
Proof. intros. unfold pow2 in *. eapply Qpower_lt_compat_l_inv; [eassumption | reflexivity]. Qed.

Lemma pow2_inject n : (0 <= n)%Z -> pow2 n == inject_Z (2 ^ n).
Proof. intros. unfold pow2. rewrite Zpower_Qpower by assumption. reflexivity. Qed.

(** round_half_even *)
Lemma round_half_even_comp q q' : q == q' -> round_half_even q = round_half_even q'.
Proof.
  intros H. unfold round_half_even.
  rewrite (Qfloor_comp _ _ H).
  assert (E : Qcompare (q - inject_Z (Qfloor q')) (1#2) = Qcompare (q' - inject_Z (Qfloor q')) (1#2)).
  { apply Qcompare_comp; [rewrite H; reflexivity | reflexivity]. }
  rewrite E. reflexivity.
Qed.

Lemma floor_bounds q : inject_Z (Qfloor q) <= q /\ q < inject_Z (Qfloor q) + 1.
Proof.
  split; [apply Qfloor_le |].
  pose proof (Qlt_floor q) as H. rewrite inject_Z_plus in H. exact H.
Qed.

Lemma round_half_even_bounds q :
  inject_Z (round_half_even q) - (1 # 2) <= q
  /\ q <= inject_Z (round_half_even q) + (1 # 2).
Proof.
  unfold round_half_even. destruct (floor_bounds q) as [Hl Hu].
  destruct (Qcompare_spec (q - inject_Z (Qfloor q)) (1 # 2)) as [E | E | E].
  - destruct (Z.even (Qfloor q)); rewrite ?inject_Z_plus;
      change (inject_Z 1) with 1; lra.
  - lra.
  - rewrite inject_Z_plus. change (inject_Z 1) with 1. lra.
Qed.

Lemma round_half_even_unique q z :
  inject_Z z - (1 # 2) < q -> q < inject_Z z + (1 # 2) ->
  round_half_even q = z.
Proof.
  intros H1 H2. unfold round_half_even. destruct (floor_bounds q) as [Hl Hu].
  assert (Hz : (Qfloor q < z + 1 /\ z < Qfloor q + 2)%Z).
  { split; rewrite Zlt_Qlt, ?inject_Z_plus;
      change (inject_Z 1) with 1; change (inject_Z 2) with 2; lra. }
  assert (Hc : z = Qfloor q \/ z = (Qfloor q + 1)%Z) by lia.
  destruct Hc as [-> | ->].
  - destruct (Qcompare_spec (q - inject_Z (Qfloor q)) (1 # 2)) as [E | E | E];
      [lra | reflexivity | lra].
  - rewrite inject_Z_plus in H1. change (inject_Z 1) with 1 in H1.
    destruct (Qcompare_spec (q - inject_Z (Qfloor q)) (1 # 2)) as [E | E | E];
      [lra | lra | reflexivity].
Qed.

Lemma round_half_even_inject z : round_half_even (inject_Z z) = z.
Proof. apply round_half_even_unique; lra. Qed.

(** floor_log2 *)
Lemma log2_bounds n : (0 < n)%Z ->
  pow2 (Z.log2 n) <= inject_Z n /\ inject_Z n < 2 * pow2 (Z.log2 n).
Proof.
  intros Hn. destruct (Z.log2_spec n Hn) as [H1 H2].
  pose proof (Z.log2_nonneg n) as Hnn.
  rewrite <- pow2_succ. rewrite !pow2_inject by lia.
  split; [rewrite <- Zle_Qle | rewrite <- Zlt_Qlt]; [exact H1 |].
  replace (Z.log2 n + 1)%Z with (Z.succ (Z.log2 n)) by lia. exact H2.
Qed.

Lemma floor_log2_spec q : 0 < q ->
  pow2 (floor_log2 q) <= q /\ q < 2 * pow2 (floor_log2 q).
Proof.
  intros Hq. unfold floor_log2.
  destruct q as [n d]. cbn [Qnum Qden].
  assert (Hn : (0 < n)%Z).
  { unfold Qlt in Hq. simpl in Hq. lia. }
  destruct (log2_bounds n Hn) as [Ha1 Ha2].
  destruct (log2_bounds (Z.pos d) eq_refl) as [Hb1 Hb2].
  set (a := Z.log2 n) in *. set (b := Z.log2 (Z.pos d)) in *.
  assert (Hq' : (n # d) * inject_Z (Z.pos d) == inject_Z n).
  { unfold Qeq, inject_Z. simpl. lia. }
  assert (HL : pow2 (a - b) * pow2 b == pow2 a).
  { rewrite <- pow2_add. replace (a - b + b)%Z with a by lia. reflexivity. }
  pose proof (pow2_pos (a - b)) as HLp. pose proof (pow2_pos b) as HBp.
  pose proof (pow2_pos a) as HAp.
  assert (HL' : pow2 (a - b - 1) * 2 == pow2 (a - b)).
  { replace (a - b)%Z with ((a - b - 1) + 1)%Z at 2 by lia.
    rewrite pow2_succ. ring. }
  pose proof (pow2_pos (a - b - 1)) as HLm.
  destruct (Qle_bool (pow2 (a - b)) (n # d)) eqn:E.
  - apply Qle_bool_iff in E. split; [exact E |]. nra.
  - assert (E' : (n # d) < pow2 (a - b)).
    { apply Qnot_le_lt. intros C. apply Qle_bool_iff in C. congruence. }
    split; [| lra]. nra.
Qed.

Lemma floor_log2_unique q l :
  pow2 l <= q -> q < 2 * pow2 l -> floor_log2 q = l.
Proof.
  intros H1 H2.
  assert (Hq : 0 < q) by (pose proof (pow2_pos l); lra).
  destruct (floor_log2_spec q Hq) as [G1 G2].
  rewrite <- pow2_succ in H2, G2.
  assert (floor_log2 q < l + 1)%Z by (apply pow2_lt_inv; lra).
  assert (l < floor_log2 q + 1)%Z by (apply pow2_lt_inv; lra).
  lia.
Qed.

Lemma floor_log2_comp q q' : 0 < q -> q == q' -> floor_log2 q = floor_log2 q'.
Proof.
  intros Hq E. apply floor_log2_unique; rewrite E;
    apply floor_log2_spec; rewrite <- E; exact Hq.
Qed.

Lemma Qle_bool_false q r : r < q -> Qle_bool q r = false.
Proof.
  intros H. destruct (Qle_bool q r) eqn:E; [| reflexivity].
  apply Qle_bool_iff in E. lra.
Qed.

Lemma Qle_bool_true q r : q <= r -> Qle_bool q r = true.
Proof. intros H. apply Qle_bool_iff. exact H. Qed.

Lemma div_pow2 q e : (q / pow2 e) * pow2 e == q.
Proof. pose proof (pow2_pos e). field. lra. Qed.

Lemma nearest_comp s q q' : q == q' -> nearest s q = nearest s q'.
Proof.
  intros E. unfold nearest.
  destruct (Qlt_le_dec 0 q) as [Hq | Hq].
  - rewrite !Qle_bool_false by lra.
    rewrite (floor_log2_comp q q' Hq E).
    set (e := Z.max _ _).
    rewrite (round_half_even_comp (q / pow2 e) (q' / pow2 e)) by (rewrite E; reflexivity).
    reflexivity.
  - rewrite !Qle_bool_true by lra. reflexivity.
Qed.

Lemma pow2_52 : pow2 52 == 4503599627370496.
Proof. reflexivity. Qed.

(** The result of [nearest] on a magnitude in the normal range. *)
Lemma nearest_normal s q :
  pow2 (min_exp + 52) <= q -> (floor_log2 q - 52 < max_exp)%Z ->
  exists m e,
    nearest s q = Fin s m e
    /\ (2 ^ 52 <= m < 2 ^ 53)%Z
    /\ (floor_log2 q - 52 <= e <= max_exp)%Z
    /\ magnitude m e - q <= pow2 (floor_log2 q - 52) * (1 # 2)
    /\ q - magnitude m e <= pow2 (floor_log2 q - 52) * (1 # 2).
Proof.
  intros Hlo Hhi.
  assert (Hq : 0 < q) by (pose proof (pow2_pos (min_exp + 52)); lra).
  destruct (floor_log2_spec q Hq) as [G1 G2].
  set (l := floor_log2 q) in *.
  assert (Hl : (min_exp + 52 <= l)%Z).
  { assert (min_exp + 52 < l + 1)%Z; [| lia].
    apply pow2_lt_inv. rewrite pow2_succ. lra. }
  unfold nearest. rewrite Qle_bool_false by exact Hq. fold l.
  change (mant_dig - 1)%Z with 52%Z. change (2 ^ mant_dig)%Z with (2 ^ 53)%Z.
  rewrite Z.max_l by lia.
  set (e0 := (l - 52)%Z) in *.
  pose proof (pow2_pos e0) as He0.
  assert (HP : pow2 l == pow2 e0 * 4503599627370496).
  { replace l with (e0 + 52)%Z by (unfold e0; lia).
    rewrite pow2_add, pow2_52. reflexivity. }
  pose proof (div_pow2 q e0) as HX.
  set (x := q / pow2 e0) in *.
  destruct (round_half_even_bounds x) as [R1 R2].
  set (m0 := round_half_even x) in *.
  assert (Hx1 : 4503599627370496 <= x) by nra.
  assert (Hx2 : x < 9007199254740992) by nra.
  assert (Hm0 : (2 ^ 52 <= m0 <= 2 ^ 53)%Z).
  { split.
    - assert (2 ^ 52 - 1 < m0)%Z; [| lia].
      rewrite Zlt_Qlt. change (inject_Z (2 ^ 52 - 1)) with 4503599627370495. lra.
    - assert (m0 < 2 ^ 53 + 1)%Z; [| lia].
      rewrite Zlt_Qlt. change (inject_Z (2 ^ 53 + 1)) with 9007199254740993. lra. }
  assert (Herr1 : inject_Z m0 * pow2 e0 - q <= pow2 e0 * (1 # 2)) by nra.
  assert (Herr2 : q - inject_Z m0 * pow2 e0 <= pow2 e0 * (1 # 2)) by nra.
  destruct (m0 =? 2 ^ 53)%Z eqn:E.
  - apply Z.eqb_eq in E.
    assert (Hov : (max_exp <? e0 + 1)%Z = false) by (apply Z.ltb_ge; lia).
    rewrite Hov. exists (2 ^ 52)%Z, (e0 + 1)%Z.
    assert (Hmag : magnitude (2 ^ 52) (e0 + 1) == inject_Z m0 * pow2 e0).
    { unfold magnitude. rewrite pow2_succ, E.
      change (inject_Z (2 ^ 52)) with 4503599627370496.
      change (inject_Z (2 ^ 53)) with 9007199254740992. ring. }
    repeat split; try lia; rewrite Hmag; assumption.
  - apply Z.eqb_neq in E.
    assert (Hov : (max_exp <? e0)%Z = false) by (apply Z.ltb_ge; lia).
    rewrite Hov. exists m0, e0.
    repeat split; try lia; unfold magnitude; assumption.
Qed.

(** A magnitude within half a unit in the last place of a normal float
    rounds to it; at a power of two the value must not lie below. *)
Lemma nearest_of_close s m e y :
  (2 ^ 52 <= m < 2 ^ 53)%Z -> (min_exp <= e <= max_exp)%Z ->
  y - magnitude m e < pow2 e * (1 # 2) ->
  magnitude m e - y < pow2 e * (1 # 2) ->
  (magnitude m e <= y \/ (2 ^ 52 < m)%Z) ->
  nearest s y = Fin s m e.
Proof.
  intros Hm He H1 H2 Hb. unfold magnitude in *.
  pose proof (pow2_pos e) as Hpe.
  assert (Hm1 : 4503599627370496 <= inject_Z m).
  { change 4503599627370496 with (inject_Z (2 ^ 52)). rewrite <- Zle_Qle. lia. }
  assert (Hm2 : inject_Z m <= 9007199254740991).
  { change 9007199254740991 with (inject_Z (2 ^ 53 - 1)). rewrite <- Zle_Qle. lia. }
  assert (Hlow : pow2 e * 4503599627370496 <= y).
  { destruct Hb as [Hb | Hb]; [nra |].
    assert (4503599627370497 <= inject_Z m).
    { change 4503599627370497 with (inject_Z (2 ^ 52 + 1)). rewrite <- Zle_Qle. lia. }
    nra. }
  assert (Hhigh : y < pow2 e * 9007199254740992) by nra.
  assert (Hl : floor_log2 y = (e + 52)%Z).
  { apply floor_log2_unique; rewrite pow2_add, pow2_52; lra. }
  assert (Hy : 0 < y) by nra.
  unfold nearest. rewrite Qle_bool_false by exact Hy. rewrite Hl.
  change (mant_dig - 1)%Z with 52%Z. change (2 ^ mant_dig)%Z with (2 ^ 53)%Z.
  replace (e + 52 - 52)%Z with e by lia. rewrite Z.max_l by lia.
  pose proof (div_pow2 y e) as HX. set (x := y / pow2 e) in *.
  assert (Hr : round_half_even x = m).
  { apply round_half_even_unique; nra. }
  rewrite Hr.
  assert (E : (m =? 2 ^ 53)%Z = false) by (apply Z.eqb_neq; lia).
  rewrite E.
  assert (Hov : (max_exp <? e)%Z = false) by (apply Z.ltb_ge; lia).
  rewrite Hov. reflexivity.
Qed.

Lemma pow10_2 : pow10 2 == 100.
Proof. reflexivity. Qed.

(** Rounding to two decimals leaves the float nearest to an amount of
    cents unchanged, for every amount the decimal context can hold. *)
Lemma py_round_cents s K :
  (0 <= K < 10 ^ 28)%Z ->
  py_round (nearest s (inject_Z K / 100)) 2 = nearest s (inject_Z K / 100).
Proof.
  intros HK.
  destruct (Z.eq_dec K 0%Z) as [-> | HK0].
  { destruct s; vm_compute; reflexivity. }
  set (q := inject_Z K / 100).
  assert (Hq100 : q * 100 == inject_Z K) by (unfold q; field).
  assert (HK1 : 1 <= inject_Z K).
  { change 1 with (inject_Z 1). rewrite <- Zle_Qle. lia. }
  assert (HK2 : inject_Z K <= 9999999999999999999999999999).
  { change 9999999999999999999999999999 with (inject_Z (10 ^ 28 - 1)).
    rewrite <- Zle_Qle. lia. }
  assert (Hlo : pow2 (min_exp + 52) <= q).
  { apply Qle_trans with (1 # 100); [vm_compute; discriminate | lra]. }
  assert (Hq : 0 < q) by lra.
  destruct (floor_log2_spec q Hq) as [G1 G2].
  assert (Hfl : (floor_log2 q < 87)%Z).
  { apply pow2_lt_inv. apply Qle_lt_trans with q; [exact G1 |].
    apply Qle_lt_trans with 100000000000000000000000000; [lra |].
    vm_compute. reflexivity. }
  assert (Hhi : (floor_log2 q - 52 < max_exp)%Z) by (unfold max_exp; lia).
  destruct (nearest_normal s q Hlo Hhi) as (m & e & Hn & Hm & He & E1 & E2).
  rewrite Hn. unfold py_round.
  set (e0 := (floor_log2 q - 52)%Z) in *.
  pose proof (pow2_pos e0) as He0. pose proof (pow2_pos e) as Hpe.
  destruct (Z_le_gt_dec e0 (-7)) as [Hc | Hc].
  - (* the spacing of floats is below a cent: the cents are recovered *)
    assert (Hp : pow2 e0 <= 1 # 128).
    { apply Qle_trans with (pow2 (-7)); [apply pow2_le; exact Hc |].
      vm_compute. discriminate. }
    assert (Hr : round_half_even (magnitude m e * pow10 2) = K).
    { apply round_half_even_unique; rewrite pow10_2; lra. }
    rewrite Hr, <- Hn. apply nearest_comp. rewrite pow10_2. reflexivity.
  - (* the float is a multiple of 1/64: rounding moves it by at most
       half a cent, less than half the spacing *)
    assert (Hp : 1 # 64 <= pow2 e).
    { apply Qle_trans with (pow2 (-6)); [vm_compute; discriminate |].
      apply pow2_le. lia. }
    destruct (round_half_even_bounds (magnitude m e * pow10 2)) as [R1 R2].
    set (K' := round_half_even (magnitude m e * pow10 2)) in *.
    rewrite pow10_2 in R1, R2.
    assert (Hy : (inject_Z K' / pow10 2) * 100 == inject_Z K').
    { rewrite pow10_2. field. }
    set (y := inject_Z K' / pow10 2) in *.
    apply nearest_of_close; try assumption; try (unfold min_exp; lia); try lra.
    destruct (Z.eq_dec m (2 ^ 52)%Z) as [-> | Hne]; [left | right; lia].
    assert (Hint : magnitude (2 ^ 52) e * 100 == inject_Z (2 ^ (52 + e) * 100)).
    { unfold magnitude. rewrite inject_Z_mult.
      rewrite <- (pow2_inject (52 + e)) by lia.
      rewrite pow2_add, pow2_52. reflexivity. }
    assert (HK' : K' = (2 ^ (52 + e) * 100)%Z).
    { unfold K'. rewrite (round_half_even_comp _ (inject_Z (2 ^ (52 + e) * 100))).
      - apply round_half_even_inject.
      - rewrite pow10_2. exact Hint. }
    rewrite HK' in Hy. lra.
Qed.
End Float64Facts.

(** ** Digits and stripping *)

Module TextFacts.
Import Text.

Lemma code_range c : 0 <= code c < 256.
Proof.
  unfold code. pose proof (N_ascii_bounded c) as H. lia.
Qed.

Lemma code_inj c d : code c = code d -> c = d.
Proof.
  unfold code. intros H. apply N2Z.inj in H.
  rewrite <- (ascii_N_embedding c), <- (ascii_N_embedding d), H. reflexivity.
Qed.

Lemma is_digit_code c : is_digit c = true -> 48 <= code c <= 57.
Proof. unfold is_digit. intros H. apply andb_prop in H. lia. Qed.

Lemma eqb_code_neq c d : code c <> code d -> Ascii.eqb c d = false.
Proof.
  intros H. destruct (Ascii.eqb_spec c d) as [-> | ]; [contradiction | reflexivity].
Qed.

Lemma code_digit_char d : 0 <= d <= 9 -> code (digit_char d) = 48 + d.
Proof.
  intros Hd. unfold code, digit_char.
  rewrite N_ascii_embedding by lia. lia.
Qed.

Lemma is_digit_digit_char d : 0 <= d <= 9 -> is_digit (digit_char d) = true.
Proof.
  intros Hd. unfold is_digit. rewrite code_digit_char by exact Hd.
  apply andb_true_intro. lia.
Qed.

Lemma digit_not_space c : is_digit c = true -> is_space c = false.
Proof. intros H. apply is_digit_code in H. unfold is_space. lia. Qed.

Lemma digit_lower c : is_digit c = true -> lower c = c.
Proof.
  intros H. apply is_digit_code in H. unfold lower.
  destruct (_ && _) eqn:E; [lia | reflexivity].
Qed.

Lemma digits_value_app l1 l2 acc :
  digits_value acc (l1 ++ l2) = digits_value (digits_value acc l1) l2.
Proof. revert acc. induction l1 as [| c l1 IH]; intros acc; simpl; [reflexivity | apply IH]. Qed.

Lemma digits_value_nonneg l : forall acc,
  forallb is_digit l = true -> 0 <= acc -> 0 <= digits_value acc l.
Proof.
  induction l as [| c l IH]; intros acc Hd Ha; simpl in *; [exact Ha |].
  apply andb_prop in Hd as [Hc Hl]. apply is_digit_code in Hc.
  apply IH; [exact Hl | lia].
Qed.

Lemma span_digits_all l : forallb is_digit (span_digits l).1 = true.
Proof.
  induction l as [| c l IH]; simpl; [reflexivity |].
  destruct (is_digit c) eqn:E; [| reflexivity].
  destruct (span_digits l) as [ds rest]. simpl in *. rewrite E, IH. reflexivity.
Qed.

Lemma span_digits_id l : forallb is_digit l = true -> span_digits l = (l, []).
Proof.
  induction l as [| c l IH]; simpl; intros H; [reflexivity |].
  apply andb_prop in H as [Hc Hl]. rewrite Hc, (IH Hl). reflexivity.
Qed.

(** The digits written by [digits_of] read back as the number. *)
Lemma digits_of_spec fuel : forall n acc,
  0 <= n < 2 ^ Z.of_nat fuel -> (0 < fuel)%nat ->
  exists ds,
    digits_of fuel n acc = ds ++ acc
    /\ ds <> []
    /\ forallb is_digit ds = true
    /\ forall a, digits_value a ds = a * 10 ^ Z.of_nat (length ds) + n.
Proof.
  induction fuel as [| f IH]; intros n acc Hn Hf.
  - lia.
  - cbn [digits_of].
    pose proof (Z.mod_pos_bound n 10 ltac:(lia)) as Hm.
    pose proof (Z.div_mod n 10 ltac:(lia)) as Hd.
    destruct (n <? 10) eqn:E.
    + apply Z.ltb_lt in E. exists [digit_char (n mod 10)].
      repeat split.
      * discriminate.
      * simpl. rewrite is_digit_digit_char by lia. reflexivity.
      * intros a. cbn [digits_value length]. rewrite code_digit_char by lia.
        rewrite Z.mod_small by lia. change (Z.of_nat 1) with 1.
        rewrite Z.pow_1_r. lia.
    + apply Z.ltb_ge in E.
      assert (Hn' : 0 <= n / 10 < 2 ^ Z.of_nat f).
      { split; [apply Z.div_pos; lia |].
        apply Z.div_lt_upper_bound; [lia |].
        rewrite Nat2Z.inj_succ, Z.pow_succ_r in Hn by lia. lia. }
      assert (Hf' : (0 < f)%nat).
      { destruct f; [simpl in Hn'; lia | lia]. }
      destruct (IH (n / 10) (digit_char (n mod 10) :: acc) Hn' Hf')
        as (ds & H1 & H2 & H3 & H4).
      exists (ds ++ [digit_char (n mod 10)]). repeat split.
      * rewrite H1, <- app_assoc. reflexivity.
      * destruct ds; discriminate.
      * rewrite forallb_app, H3. simpl.
        rewrite is_digit_digit_char by lia. reflexivity.
      * intros a. rewrite digits_value_app, H4. cbn [digits_value].
        rewrite code_digit_char by lia. rewrite length_app, Nat2Z.inj_add.
        cbn [length]. change (Z.of_nat 1) with 1.
        rewrite Z.pow_add_r, Z.pow_1_r by lia. lia.
Qed.

Lemma lstrip_head p c l : p c = false -> lstrip p (c :: l) = c :: l.
Proof. intros H. simpl. rewrite H. reflexivity. Qed.

Lemma strip_id p c d l1 l2 :
  c :: l1 = l2 ++ [d] -> p c = false -> p d = false ->
  strip p (c :: l1) = c :: l1.
Proof.
  intros E Hc Hd. unfold strip.
  rewrite lstrip_head by exact Hc. rewrite E.
  rewrite rev_app_distr. cbn [rev app lstrip]. rewrite Hd.
  cbn [rev]. rewrite rev_involutive. reflexivity.
Qed.

Lemma remove_underscores_digits l :
  forallb is_digit l = true -> remove_underscores l = l.
Proof.
  induction l as [| c l IH]; simpl; intros H; [reflexivity |].
  apply andb_prop in H as [Hc Hl].
  rewrite eqb_code_neq by (apply is_digit_code in Hc; change (code "_") with 95; lia).
  simpl. rewrite (IH Hl). reflexivity.
Qed.

Lemma map_lower_digits l : forallb is_digit l = true -> map lower l = l.
Proof.
  induction l as [| c l IH]; simpl; intros H; [reflexivity |].
  apply andb_prop in H as [Hc Hl]. rewrite digit_lower, (IH Hl) by exact Hc.
  reflexivity.
Qed.

End TextFacts.

(** ** Quantizing to cents *)

Module DecimalFacts.
Import Decimal.

Lemma count_digits_spec fuel : forall c,
  0 < c < 2 ^ Z.of_nat fuel ->
  1 <= count_digits fuel c
  /\ 10 ^ (count_digits fuel c - 1) <= c < 10 ^ count_digits fuel c.
Proof.
  induction fuel as [| f IH]; intros c Hc.
  - simpl in Hc. lia.
  - cbn [count_digits]. destruct (c <? 10) eqn:E.
    + apply Z.ltb_lt in E. simpl. lia.
    + apply Z.ltb_ge in E.
      assert (Hc' : 0 < c / 10 < 2 ^ Z.of_nat f).
      { split; [apply Z.div_str_pos; lia |].
        apply Z.div_lt_upper_bound; [lia |].
        rewrite Nat2Z.inj_succ, Z.pow_succ_r in Hc by lia. lia. }
      destruct (IH _ Hc') as (H1 & H2 & H3).
      set (k := count_digits f (c / 10)) in *.
      replace (1 + k - 1) with (Z.succ (k - 1)) by lia.
      replace (1 + k) with (Z.succ k) by lia.
      rewrite !Z.pow_succ_r by lia.
      pose proof (Z.div_mod c 10 ltac:(lia)) as Hd.
      pose proof (Z.mod_pos_bound c 10 ltac:(lia)) as Hm.
      lia.
Qed.

Lemma num_digits_spec c : 0 < c ->
  1 <= num_digits c /\ 10 ^ (num_digits c - 1) <= c < 10 ^ num_digits c.
Proof.
  intros Hc. unfold num_digits. apply count_digits_spec.
  split; [exact Hc |].
  rewrite Nat2Z.inj_succ, Z2Nat.id by apply Z.log2_nonneg.
  apply Z.log2_spec. exact Hc.
Qed.

Lemma num_digits_le c k : 0 <= c < 10 ^ k -> 1 <= k -> num_digits c <= k.
Proof.
  intros Hc Hk. destruct (Z.eq_dec c 0) as [-> | Hn]; [exact Hk |].
  destruct (num_digits_spec c ltac:(lia)) as (H1 & H2 & H3).
  assert (num_digits c - 1 < k); [| lia].
  apply (Z.pow_lt_mono_r_iff 10); lia.
Qed.

Lemma num_digits_gt c k : 10 ^ k <= c -> 0 <= k -> k < num_digits c.
Proof.
  intros Hc Hk.
  assert (0 < c) by (pose proof (Z.pow_pos_nonneg 10 k); lia).
  destruct (num_digits_spec c ltac:(lia)) as (H1 & H2 & H3).
  apply (Z.pow_lt_mono_r_iff 10); lia.
Qed.

(** Keeping the digits above position [k] and looking at the first
    dropped digit rounds [c / 10^k] half up. *)
Lemma first_dropped_digit c k : 0 <= c -> 1 <= k ->
  let c' := c / 10 ^ k + (if 5 <=? (c / 10 ^ (k - 1)) mod 10 then 1 else 0) in
  2 * 10 ^ k * c' <= 2 * c + 10 ^ k < 2 * 10 ^ k * (c' + 1).
Proof.
  intros Hc Hk.
  assert (HP : 10 ^ k = 10 ^ (k - 1) * 10).
  { replace k with (Z.succ (k - 1)) at 1 by lia. rewrite Z.pow_succ_r by lia. lia. }
  assert (HP1 : 0 < 10 ^ (k - 1)) by (apply Z.pow_pos_nonneg; lia).
  set (P1 := 10 ^ (k - 1)) in *.
  rewrite HP. rewrite <- Z.div_div by lia.
  pose proof (Z.div_mod c P1 ltac:(lia)) as Hd.
  pose proof (Z.mod_pos_bound c P1 ltac:(lia)) as Hb.
  set (a := c / P1) in *. set (b := c mod P1) in *.
  pose proof (Z.div_mod a 10 ltac:(lia)) as Hd'.
  pose proof (Z.mod_pos_bound a 10 ltac:(lia)) as Hb'.
  set (q := a / 10) in *. set (d := a mod 10) in *.
  cbv zeta. destruct (5 <=? d) eqn:E;
    [apply Z.leb_le in E | apply Z.leb_gt in E]; nia.
Qed.

Local Open Scope Q_scope.
Local Abbreviation pow10 := Float64.pow10.

Lemma pow10_pos e : 0 < pow10 e.
Proof. unfold Float64.pow10. apply Qpower_0_lt. reflexivity. Qed.

Lemma pow10_add a b : pow10 (a + b) == pow10 a * pow10 b.
Proof. unfold Float64.pow10. apply Qpower_plus. discriminate. Qed.

Lemma pow10_inject n : (0 <= n)%Z -> pow10 n == inject_Z (10 ^ n).
Proof. intros. unfold Float64.pow10. rewrite Zpower_Qpower by assumption. reflexivity. Qed.

Lemma pow10_le a b : (a <= b)%Z -> pow10 a <= pow10 b.
Proof. intros. unfold Float64.pow10. apply Qpower_le_compat_l; [assumption | discriminate]. Qed.

Lemma Qfloor_unique x z :
  inject_Z z <= x -> x < inject_Z z + 1 -> Qfloor x = z.
Proof.
  intros H1 H2.
  pose proof (Qfloor_le x) as F1. pose proof (Qlt_floor x) as F2.
  rewrite inject_Z_plus in F2. change (inject_Z 1) with 1 in F2.
  assert (z < Qfloor x + 1)%Z.
  { rewrite Zlt_Qlt, inject_Z_plus. change (inject_Z 1) with 1. lra. }
  assert (Qfloor x < z + 1)%Z.
  { rewrite Zlt_Qlt, inject_Z_plus. change (inject_Z 1) with 1. lra. }
  lia.
Qed.

Lemma half_up_cents_comp q q' : q == q' -> half_up_cents q = half_up_cents q'.
Proof. intros E. unfold half_up_cents. apply Qfloor_comp. rewrite E. reflexivity. Qed.

Lemma half_up_cents_mono q q' : q <= q' -> (half_up_cents q <= half_up_cents q')%Z.
Proof. intros H. unfold half_up_cents. apply Qfloor_resp_le. lra. Qed.

Lemma half_up_cents_inject z : half_up_cents (inject_Z z / 100) = z.
Proof.
  unfold half_up_cents. apply Qfloor_unique.
  - assert (E : inject_Z z / 100 * 100 == inject_Z z) by field. lra.
  - assert (E : inject_Z z / 100 * 100 == inject_Z z) by field. lra.
Qed.

(** Padding with zeros is exact. *)
Lemma half_up_cents_pad c e : (-2 <= e)%Z ->
  half_up_cents (magnitude c e) = (c * 10 ^ (e + 2))%Z.
Proof.
  intros He. rewrite <- (half_up_cents_inject (c * 10 ^ (e + 2))).
  apply half_up_cents_comp. unfold magnitude.
  rewrite inject_Z_mult, <- pow10_inject by lia.
  rewrite pow10_add. change (pow10 2) with 100. field.
Qed.

(** Dropping digits rounds half up. *)
Lemma half_up_cents_drop c e : (0 <= c)%Z -> (e < -2)%Z ->
  half_up_cents (magnitude c e)
  = (if 5 <=? (c / 10 ^ (-2 - e - 1)) mod 10
     then c / 10 ^ (-2 - e) + 1 else c / 10 ^ (-2 - e))%Z.
Proof.
  intros Hc He. set (k := (-2 - e)%Z).
  transitivity (c / 10 ^ k + (if 5 <=? (c / 10 ^ (k - 1)) mod 10 then 1 else 0))%Z;
    [| destruct (5 <=? _)%Z; lia].
  pose proof (first_dropped_digit c k Hc ltac:(lia)) as H. cbv zeta in H.
  set (c' := (c / 10 ^ k + _)%Z) in *.
  destruct H as [H1 H2].
  rewrite Zle_Qle in H1. rewrite Zlt_Qlt in H2.
  rewrite !inject_Z_mult, !inject_Z_plus, ?inject_Z_mult in H1, H2.
  change (inject_Z 2) with 2 in *. change (inject_Z 1) with 1 in *.
  assert (HP : pow10 e * 100 * inject_Z (10 ^ k) == 1).
  { rewrite <- pow10_inject by lia. change 100 with (pow10 2).
    rewrite <- !pow10_add. replace (e + 2 + k)%Z with 0%Z by lia. reflexivity. }
  assert (HPp : 0 < inject_Z (10 ^ k)).
  { rewrite <- pow10_inject by lia. apply pow10_pos. }
  set (P := inject_Z (10 ^ k)) in *.
  assert (HX : magnitude c e * 100 * P == inject_Z c).
  { unfold magnitude. rewrite <- (Qmult_1_r (inject_Z c)) at 2.
    rewrite <- HP. ring. }
  set (X := magnitude c e * 100) in *.
  unfold half_up_cents. fold X.
  rewrite inject_Z_plus in H2. change (inject_Z 1) with 1 in H2.
  clearbody X c' P. apply Qfloor_unique; nra.
Qed.

(** [quantize] to cents succeeds exactly when the rounded amount fits
    the 28 digits of the context, and then holds the magnitude rounded
    half up. *)
Lemma quantize_cent s c e : (0 <= c)%Z ->
  quantize (Finite s c e) cent
  = if (half_up_cents (magnitude c e) <? 10 ^ 28)%Z
    then Ok (Finite s (half_up_cents (magnitude c e)) (-2))
    else Raise InvalidOperation.
Proof.
  intros Hc. unfold quantize, cent.
  change (negb ((Etiny <=? -2)%Z && (-2 <=? Emax)%Z)) with false. cbv iota.
  destruct (c =? 0)%Z eqn:E0.
  { apply Z.eqb_eq in E0. subst c.
    assert (H0 : half_up_cents (magnitude 0 e) = 0%Z).
    { rewrite <- (half_up_cents_inject 0). apply half_up_cents_comp.
      unfold magnitude. change (inject_Z 0) with 0.
      rewrite Qmult_0_l. reflexivity. }
    rewrite H0. reflexivity. }
  apply Z.eqb_neq in E0. assert (Hc' : (0 < c)%Z) by lia.
  destruct (num_digits_spec c Hc') as (N1 & N2 & N3).
  unfold adjusted. set (nd := num_digits c) in *.
  assert (Hbig : (26 <= e + nd - 1)%Z ->
                 (half_up_cents (magnitude c e) <? 10 ^ 28)%Z = false).
  { intros Hb. apply Z.ltb_ge.
    rewrite <- (half_up_cents_inject (10 ^ 28)).
    apply half_up_cents_mono.
    apply Qle_trans with (pow10 26).
    { vm_compute. discriminate. }
    apply Qle_trans with (pow10 (e + nd - 1)); [apply pow10_le; exact Hb |].
    replace (e + nd - 1)%Z with ((nd - 1) + e)%Z by lia.
    rewrite pow10_add, pow10_inject by lia. unfold magnitude.
    rewrite Zle_Qle in N2. pose proof (pow10_pos e). nra. }
  destruct (Emax <? e + nd - 1)%Z eqn:E1.
  { apply Z.ltb_lt in E1. rewrite Hbig by (unfold Emax in E1; lia). reflexivity. }
  destruct (prec <? e + nd - 1 - -2 + 1)%Z eqn:E2.
  { apply Z.ltb_lt in E2. rewrite Hbig by (unfold prec in E2; lia). reflexivity. }
  apply Z.ltb_ge in E1, E2. unfold prec in E2.
  assert (Hfinal : forall c', (0 <= c' <= 10 ^ 28)%Z ->
    (if (Emax <? -2 + num_digits c' - 1)%Z then Raise InvalidOperation
     else if (28 <? num_digits c')%Z then Raise InvalidOperation
     else Ok (Finite s c' (-2)))
    = if (c' <? 10 ^ 28)%Z then Ok (Finite s c' (-2)) else Raise InvalidOperation).
  { intros c' Hc2.
    assert (Hnd : (num_digits c' <= 29)%Z).
    { apply num_digits_le; lia. }
    assert (Ea : (Emax <? -2 + num_digits c' - 1)%Z = false).
    { apply Z.ltb_ge. unfold Emax. lia. }
    rewrite Ea. destruct (c' <? 10 ^ 28)%Z eqn:E3.
    - apply Z.ltb_lt in E3.
      assert (num_digits c' <= 28)%Z by (apply num_digits_le; lia).
      assert (Eb : (28 <? num_digits c')%Z = false) by (apply Z.ltb_ge; lia).
      rewrite Eb. reflexivity.
    - apply Z.ltb_ge in E3.
      assert (28 < num_digits c')%Z by (apply num_digits_gt; lia).
      assert (Eb : (28 <? num_digits c')%Z = true) by (apply Z.ltb_lt; lia).
      rewrite Eb. reflexivity. }
  unfold rescale_half_up. rewrite (proj2 (Z.eqb_neq c 0) E0).
  destruct (-2 <=? e)%Z eqn:E3.
  - apply Z.leb_le in E3. rewrite half_up_cents_pad by exact E3.
    replace (e - -2)%Z with (e + 2)%Z by lia.
    apply Hfinal. split; [apply Z.mul_nonneg_nonneg; [lia | apply Z.pow_nonneg; lia] |].
    apply Z.le_trans with (10 ^ nd * 10 ^ (e + 2))%Z.
    + apply Z.mul_le_mono_nonneg_r; [apply Z.pow_nonneg; lia | lia].
    + rewrite <- Z.pow_add_r by lia. apply Z.pow_le_mono_r; lia.
  - apply Z.leb_gt in E3. rewrite half_up_cents_drop by (try exact Hc; exact E3).
    fold nd. set (k := (-2 - e)%Z).
    destruct (nd + e - -2 <? 0)%Z eqn:E4.
    + (* every digit is dropped and the first of them is a zero *)
      apply Z.ltb_lt in E4. change (num_digits 1) with 1%Z.
      change (1 - 0)%Z with 1%Z. change (1 / 10 ^ 1)%Z with 0%Z.
      change ((1 / 10 ^ (1 - 1)) mod 10)%Z with 1%Z.
      change (5 <=? 1)%Z with false. cbv iota.
      assert (Hs : (c < 10 ^ (k - 1))%Z).
      { apply Z.lt_le_trans with (10 ^ nd)%Z; [lia |].
        apply Z.pow_le_mono_r; lia. }
      assert (Hk : (10 ^ k = 10 ^ (k - 1) * 10)%Z).
      { replace k with (Z.succ (k - 1)) at 1 by lia.
        rewrite Z.pow_succ_r by lia. lia. }
      assert (0 < 10 ^ (k - 1))%Z by (apply Z.pow_pos_nonneg; lia).
      rewrite (Z.div_small c (10 ^ k)) by lia.
      rewrite (Z.div_small c (10 ^ (k - 1))) by lia.
      reflexivity.
    + apply Z.ltb_ge in E4.
      replace (num_digits c - (nd + e - -2))%Z with k by (unfold k, nd; lia).
      apply Hfinal.
      assert (Hk0 : (0 < 10 ^ k)%Z) by (apply Z.pow_pos_nonneg; unfold k; lia).
      assert (Hq : (0 <= c / 10 ^ k < 10 ^ 28)%Z).
      { split; [apply Z.div_pos; lia |].
        apply Z.div_lt_upper_bound; [lia |].
        apply Z.lt_le_trans with (10 ^ nd)%Z; [lia |].
        rewrite <- Z.pow_add_r by (unfold k; lia).
        apply Z.pow_le_mono_r; unfold k; lia. }
      destruct (5 <=? _)%Z; lia.
Qed.
End DecimalFacts.

(** ** Numbers read from floats and texts *)

Module NumberFacts.
Import Text TextFacts DecimalFacts Float64Facts.

(** A positive divisor of a power of two is a power of two. *)
Lemma divisor_of_pow2 j : 0 <= j -> forall d,
  0 < d -> (d | 2 ^ j) -> d = 2 ^ Z.log2 d.
Proof.
  intros Hj. pattern j. apply natlike_ind; [| | exact Hj]; clear j Hj.
  - intros d Hd Hdiv. simpl in Hdiv.
    assert (d = 1).
    { apply Z.divide_pos_le in Hdiv; lia. }
    subst d. reflexivity.
  - intros j Hj IH d Hd Hdiv. rewrite Z.pow_succ_r in Hdiv by exact Hj.
    destruct (Z.even d) eqn:E.
    + apply Z.even_spec in E. destruct E as [d' ->].
      assert (Hd' : 0 < d') by lia.
      assert (Hdiv' : (d' | 2 ^ j)).
      { destruct Hdiv as [k Hk]. exists k. lia. }
      rewrite Z.log2_double by exact Hd'.
      rewrite Z.pow_succ_r by apply Z.log2_nonneg.
      rewrite <- (IH d' Hd' Hdiv'). reflexivity.
    + assert (Hodd : Z.odd d = true) by (rewrite <- Z.negb_even, E; reflexivity).
      apply IH; [exact Hd |].
      apply Z.gauss with 2; [exact Hdiv |].
      apply Z.odd_spec in Hodd. destruct Hodd as [k ->].
      apply Z.bezout_1_gcd. exists 1, (- k). lia.
Qed.

(** [Decimal.from_float] is exact. *)
Lemma from_float_exact s m e : 0 <= m ->
  exists c e',
    Decimal.from_float (Float64.Fin s m e) = Decimal.Finite s c e'
    /\ 0 <= c
    /\ (Decimal.magnitude c e' == Float64.magnitude m e)%Q.
Proof.
  intros Hm. unfold Decimal.from_float, Float64.as_integer_ratio.
  destruct (0 <=? e) eqn:E.
  - apply Z.leb_le in E. exists (m * 2 ^ e * 5 ^ Z.log2 1), (- Z.log2 1).
    split; [reflexivity |]. change (Z.log2 1) with 0.
    split; [apply Z.mul_nonneg_nonneg; [apply Z.mul_nonneg_nonneg |]; lia |].
    unfold Decimal.magnitude, Float64.magnitude.
    rewrite pow2_inject by exact E.
    change (5 ^ 0) with 1. rewrite Z.mul_1_r, inject_Z_mult.
    change (Float64.pow10 (- 0)) with 1%Q. ring.
  - apply Z.leb_gt in E.
    assert (HP : 0 < 2 ^ (- e)) by (apply Z.pow_pos_nonneg; lia).
    set (P := 2 ^ (- e)) in *. set (g := Z.gcd m P).
    assert (Hg : 0 < g).
    { pose proof (Z.gcd_nonneg m P). 
      assert (g <> 0); [| unfold g in *; lia].
      unfold g. intros C. apply Z.gcd_eq_0_r in C. lia. }
    destruct (Z.gcd_divide_l m P) as [n Hn]. fold g in Hn.
    destruct (Z.gcd_divide_r m P) as [d Hd]. fold g in Hd.
    assert (En : m / g = n) by (rewrite Hn; apply Z.div_mul; lia).
    assert (Ed : P / g = d) by (rewrite Hd; apply Z.div_mul; lia).
    rewrite En, Ed.
    assert (Hd0 : 0 < d) by nia.
    assert (Hn0 : 0 <= n) by nia.
    assert (Hdiv : (d | 2 ^ (- e))).
    { exists g. fold P. lia. }
    pose proof (divisor_of_pow2 (- e) ltac:(lia) d Hd0 Hdiv) as Hpow.
    set (k := Z.log2 d) in *.
    assert (Hk : 0 <= k) by apply Z.log2_nonneg.
    exists (n * 5 ^ k), (- k). split; [reflexivity |].
    split; [apply Z.mul_nonneg_nonneg; [lia | apply Z.pow_nonneg; lia] |].
    unfold Decimal.magnitude, Float64.magnitude.
    assert (HT : (Float64.pow10 (- k) * inject_Z (5 ^ k) * inject_Z (2 ^ k) == 1)%Q).
    { rewrite <- Qmult_assoc, <- inject_Z_mult, <- Z.pow_mul_l.
      change (5 * 2) with 10. rewrite <- pow10_inject by exact Hk.
      rewrite <- pow10_add. replace (- k + k) with 0 by lia. reflexivity. }
    assert (HU : (Float64.pow2 e * inject_Z P == 1)%Q).
    { unfold P. rewrite <- pow2_inject by lia. rewrite <- pow2_add.
      replace (e + - e) with 0 by lia. reflexivity. }
    rewrite Hd, Hpow, inject_Z_mult in HU. rewrite Hn, !inject_Z_mult.
    assert (HB : (0 < inject_Z (2 ^ k))%Q).
    { rewrite <- pow2_inject by exact Hk. apply pow2_pos. }
    assert (HG : (0 < inject_Z g)%Q).
    { change 0%Q with (inject_Z 0). rewrite <- Zlt_Qlt. exact Hg. }
    set (T := Float64.pow10 (- k)) in *. set (U := Float64.pow2 e) in *.
    set (A := inject_Z (5 ^ k)) in *. set (B := inject_Z (2 ^ k)) in *.
    set (G := inject_Z g) in *. set (N := inject_Z n) in *.
    apply (Qmult_inj_r _ _ (B * G)%Q); [nra |].
    transitivity (N * G * (T * A * B))%Q; [ring |].
    transitivity (N * G * (U * (B * G)))%Q; [rewrite HT, HU; reflexivity | ring].
Qed.

Lemma chars_text l : chars (text l) = l.
Proof. apply list_ascii_of_string_of_list_ascii. Qed.

Lemma scan_digits ds :
  ds <> [] -> forallb is_digit ds = true ->
  scan_finite ds = Some (LitFinite ds [] 0).
Proof.
  intros Hne Hd. unfold scan_finite. rewrite span_digits_id by exact Hd.
  rewrite app_nil_r. destruct ds; [contradiction | reflexivity].
Qed.

(** The text of an [int] reads back as that integer. *)
Lemma of_string_str_int n :
  Decimal.of_string (str_int n) = Ok (Decimal.Finite (n <? 0) (Z.abs n) 0).
Proof.
  unfold Decimal.of_string, str_int. rewrite chars_text.
  destruct (digits_of_spec (S (Z.to_nat (Z.log2 (Z.abs n)))) (Z.abs n) [])
    as (ds & E & Hne & Hd & Hv).
  { split; [lia |].
    rewrite Nat2Z.inj_succ, Z2Nat.id by apply Z.log2_nonneg.
    destruct (Z.eq_dec (Z.abs n) 0) as [-> | Hn]; [reflexivity |].
    apply Z.log2_spec. lia. }
  { lia. }
  rewrite E, app_nil_r. clear E.
  destruct (exists_last Hne) as (ds' & d & Hlast).
  assert (Hdd : is_digit d = true).
  { rewrite Hlast, forallb_app in Hd. apply andb_prop in Hd as [_ Hd].
    simpl in Hd. apply andb_prop in Hd as [Hd _]. exact Hd. }
  destruct ds as [| c ds0]; [contradiction |].
  assert (Hc : is_digit c = true).
  { simpl in Hd. apply andb_prop in Hd as [Hc _]. exact Hc. }
  pose proof (is_digit_code c Hc) as Hcc.
  assert (Hval : digits_value 0 ((c :: ds0) ++ []) = Z.abs n).
  { rewrite app_nil_r, Hv. lia. }
  destruct (n <? 0).
  - rewrite (strip_id is_space "-"%char d (c :: ds0) ("-"%char :: ds'));
      [| rewrite Hlast; reflexivity | reflexivity | apply digit_not_space; exact Hdd].
    change (remove_underscores ("-"%char :: c :: ds0))
      with ("-"%char :: remove_underscores (c :: ds0)).
    rewrite remove_underscores_digits by exact Hd.
    unfold scan_number.
    change (map lower ("-"%char :: c :: ds0))
      with ("-"%char :: map lower (c :: ds0)).
    rewrite map_lower_digits by exact Hd.
    cbn [scan_sign]. change (Ascii.eqb "-" "-") with true. cbv iota.
    rewrite Hc. cbn [orb].
    rewrite scan_digits by (try exact Hd; discriminate).
    rewrite Hval. reflexivity.
  - rewrite (strip_id is_space c d ds0 ds');
      [| exact Hlast | apply digit_not_space; exact Hc
       | apply digit_not_space; exact Hdd].
    rewrite remove_underscores_digits by exact Hd.
    unfold scan_number. rewrite map_lower_digits by exact Hd.
    cbn [scan_sign].
    rewrite !eqb_code_neq
      by (change (code "-") with 45; change (code "+") with 43; lia).
    rewrite Hc. cbn [orb].
    rewrite scan_digits by (try exact Hd; discriminate).
    rewrite Hval. reflexivity.
Qed.

Lemma scan_finite_digits r t :
  scan_finite r = Some t ->
  exists int frac e,
    t = LitFinite int frac e /\ forallb is_digit (int ++ frac) = true.
Proof.
  unfold scan_finite. intros H.
  pose proof (span_digits_all r) as H1.
  destruct (span_digits r) as [int r1]. simpl in H1.
  assert (H2 : forall p : list ascii * list ascii,
             p = match r1 with
                 | c :: r0 => if Ascii.eqb c "." then span_digits r0 else ([], r1)
                 | [] => ([], r1)
                 end -> forallb is_digit p.1 = true).
  { intros p ->. destruct r1 as [| c r0]; [reflexivity |].
    destruct (Ascii.eqb c "."); [apply span_digits_all | reflexivity]. }
  destruct (match r1 with
            | c :: r0 => if Ascii.eqb c "." then span_digits r0 else ([], r1)
            | [] => ([], r1)
            end) as [frac r2].
  specialize (H2 _ eq_refl). simpl in H2.
  assert (Hall : forallb is_digit (int ++ frac) = true)
    by (rewrite forallb_app, H1, H2; reflexivity).
  destruct (int ++ frac) eqn:Eapp; [discriminate |]. rewrite <- Eapp in Hall.
  destruct r2 as [| c r3].
  - injection H as <-. eauto.
  - destruct (Ascii.eqb c "e"); [| discriminate].
    destruct (scan_exponent r3); [| discriminate].
    injection H as <-. eauto.
Qed.

Lemma scan_special_not_finite l int frac e :
  scan_special l <> Some (LitFinite int frac e).
Proof.
  unfold scan_special.
  repeat match goal with
         | |- context [match ?x with _ => _ end] => destruct x
         end; discriminate.
Qed.

(** A coefficient read from a text is not negative. *)
Lemma of_string_finite_nonneg t s c e :
  Decimal.of_string t = Ok (Decimal.Finite s c e) -> 0 <= c.
Proof.
  unfold Decimal.of_string.
  set (l := remove_underscores _). unfold scan_number.
  destruct (scan_sign (map lower l)) as [neg r].
  destruct r as [| ch r']; [discriminate |].
  destruct (is_digit ch || Ascii.eqb ch ".").
  - destruct (scan_finite (ch :: r')) as [t0 |] eqn:E; [| discriminate].
    destruct (scan_finite_digits _ _ E) as (int & frac & e0 & -> & Hd).
    intros H. injection H as <- <- <-.
    apply digits_value_nonneg; [exact Hd | lia].
  - destruct (scan_special (ch :: r')) as [t0 |] eqn:E; [| discriminate].
    destruct t0 as [int frac e0 | | sig diag]; try discriminate.
    exfalso. exact (scan_special_not_finite _ _ _ _ E).
Qed.

(** A numeric price converts to a decimal of the same sign and
    magnitude. *)
Lemma price_value_numeric p s q :
  numeric_value p = Some (s, q) ->
  exists c e,
    price_value p = Ok (Decimal.Finite s c e)
    /\ 0 <= c /\ (Decimal.magnitude c e == q)%Q.
Proof.
  destruct p as [| b | n | x | t | l | d | dec | cat | cls]; try discriminate; simpl.
  - intros H. injection H as <- <-. rewrite of_string_str_int.
    exists (Z.abs n), 0. split; [reflexivity |]. split; [lia |].
    unfold Decimal.magnitude. change (Float64.pow10 0) with 1%Q. ring.
  - destruct x as [| neg | neg m e]; try discriminate.
    destruct (0 <=? m) eqn:E; [| discriminate]. apply Z.leb_le in E.
    intros H. injection H as <- <-.
    destruct (from_float_exact neg m e E) as (c & e' & H1 & H2 & H3).
    exists c, e'. rewrite <- H1. auto.
  - destruct (Decimal.of_string t) as [[s' c e | |] |] eqn:E; try discriminate.
    intros H. injection H as <- <-. exists c, e.
    split; [reflexivity |]. split; [| reflexivity].
    exact (of_string_finite_nonneg _ _ _ _ E).
  - destruct dec as [s' c e | |]; try discriminate.
    destruct (0 <=? c) eqn:E; [| discriminate]. apply Z.leb_le in E.
    intros H. injection H as <- <-. exists c, e. auto with qarith.
Qed.
End NumberFacts.

(** ** The steps of deserialize *)

Lemma of_string_cent : Decimal.of_string "0.01" = Ok Decimal.cent.
Proof. reflexivity. Qed.

(** [deserialize] step by step: each statement either raises through the
    handler, leaving the attributes assigned so far, or goes on. *)
Lemma deserialize_unfold data self :
  deserialize data self =
    match getitem data "name" with
    | Raise e => (self, Raise (deserialize_handler e))
    | Ok n =>
      let s1 := (set_name n self).1 in
      match getitem data "description" with
      | Raise e => (s1, Raise (deserialize_handler e))
      | Ok ds =>
        let s2 := (set_description ds s1).1 in
        match (raw ← getitem data "price"; v ← price_value raw;
               Decimal.quantize v Decimal.cent) with
        | Raise e => (s2, Raise (deserialize_handler e))
        | Ok q =>
          let s3 := (set_price (PyDecimal q) s2).1 in
          match getitem data "available" with
          | Raise e => (s3, Raise (deserialize_handler e))
          | Ok a =>
            if isinstance_bool a then
              let s4 := (set_available a s3).1 in
              match (v ← getitem data "category"; Category_getattr v) with
              | Raise e => (s4, Raise (deserialize_handler e))
              | Ok m => let s5 := (set_category m s4).1 in (s5, Ok s5)
              end
            else
              (s3, Raise (DataValidationError
                            ("Invalid type for boolean [available]: " ++ str_type a)))
          end
        end
      end
    end.
Proof.
  unfold deserialize, try_except, deserialize_body.
  unfold mbind, action_bind, result_bind, lift, raise.
  rewrite of_string_cent.
  destruct (getitem data "name") as [n | e1]; [| reflexivity].
  cbn [set_name fst snd].
  destruct (getitem data "description") as [ds | e2]; [| reflexivity].
  cbn [set_description fst snd].
  destruct (getitem data "price") as [raw | e3]; [| reflexivity].
  destruct (price_value raw) as [v | e4]; [| reflexivity].
  destruct (Decimal.quantize v Decimal.cent) as [q | e5]; [| reflexivity].
  cbn [set_price fst snd].
  destruct (getitem data "available") as [a | e6]; [| reflexivity].
  destruct (isinstance_bool a); [| reflexivity].
  cbn [set_available fst snd].
  destruct (getitem data "category") as [c | e7]; [| reflexivity].
  destruct (Category_getattr c) as [m | e8]; reflexivity.
Qed.

(* ================================================================== *)
(** * Claims *)
(* ================================================================== *)

Section Roundtrip.

Import DecimalFacts Float64Facts NumberFacts.

Lemma half_up_cents_nonneg q : (0 <= q)%Q -> 0 <= half_up_cents q.
Proof.
  intros Hq. change 0 with (half_up_cents (inject_Z 0 / 100)) at 1.
  apply half_up_cents_mono. change (inject_Z 0 / 100)%Q with (0 # 100)%Q. lra.
Qed.

Lemma magnitude_nonneg c e : 0 <= c -> (0 <= Decimal.magnitude c e)%Q.
Proof.
  intros Hc. unfold Decimal.magnitude. pose proof (pow10_pos e).
  rewrite Zle_Qle in Hc. change (inject_Z 0) with 0%Q in Hc. nra.
Qed.

(** A numeric price within the context is stored rounded half up. *)
Lemma quantize_numeric p s q :
  numeric_value p = Some (s, q) -> half_up_cents q < 10 ^ 28 ->
  (v ← price_value p; Decimal.quantize v Decimal.cent)
  = Ok (Decimal.Finite s (half_up_cents q) (-2))
  /\ 0 <= half_up_cents q.
Proof.
  intros Hn Hb. destruct (price_value_numeric p s q Hn) as (c & e & Hp & Hc & Hm).
  rewrite Hp. cbn [mbind result_bind]. rewrite quantize_cent by exact Hc.
  rewrite (half_up_cents_comp _ _ Hm).
  rewrite (proj2 (Z.ltb_lt _ _) Hb). split; [reflexivity |].
  apply half_up_cents_nonneg. rewrite <- Hm. apply magnitude_nonneg. exact Hc.
Qed.

Lemma getattr_member c : Category_getattr (PyStr (Category_name c)) = Ok (PyEnum c).
Proof. destruct c; vm_compute; reflexivity. Qed.

(** The float rendered for a price held at two decimals. *)
Lemma serialize_price_cents s c :
  0 <= c < 10 ^ 28 ->
  (x ← py_float (PyDecimal (Decimal.Finite s c (-2))); Ok (Float64.py_round x 2))
  = Ok (float_of_cents s c).
Proof.
  intros Hc. cbn [py_float Decimal.to_float mbind result_bind].
  assert (E : (Decimal.magnitude c (-2) == inject_Z c / 100)%Q).
  { unfold Decimal.magnitude. change (Float64.pow10 (-2)) with (1 # 100)%Q. field. }
  rewrite (nearest_comp s _ _ E), py_round_cents by exact Hc. reflexivity.
Qed.

(** What [serialize] returns for a record whose price converts to a
    float and whose category is a member. *)
Lemma serialize_ok self x c :
  py_float (price self) = Ok x -> category self = PyEnum c ->
  serialize self
  = Ok (PyDict (list_to_map
          [ ("id", id self); ("name", name self);
            ("description", description self);
            ("price", PyFloat (Float64.py_round x 2));
            ("available", available self);
            ("category", PyStr (Category_name c)) ])).
Proof. intros Hx Hc. unfold serialize. rewrite Hx, Hc. reflexivity. Qed.

Lemma py_float_cents s c :
  0 <= c < 10 ^ 28 ->
  exists x, py_float (PyDecimal (Decimal.Finite s c (-2))) = Ok x
            /\ Float64.py_round x 2 = float_of_cents s c.
Proof.
  intros Hc. pose proof (serialize_price_cents s c Hc) as H.
  destruct (py_float _) as [x |]; [| discriminate].
  exists x. split; [reflexivity |]. cbn [mbind result_bind] in H. congruence.
Qed.
End Roundtrip.



(** The float nearest to an amount of cents is in general not that
    amount: ten cents are not a binary fraction. *)
Lemma float_of_cents_inexact :
  float_of_cents false 10 = Float64.Fin false 0x1999999999999a (-56)
  /\ ~ (Float64.magnitude 0x1999999999999a (-56) == 10 # 100)%Q.
Proof. split; [vm_compute; reflexivity | vm_compute; discriminate]. Qed.


(** A float price is converted exactly and stored rounded half up. *)
Lemma deserialize_float_price (d : gmap string PyValue) (self : Product) n ds s m e :
  d !! "name" = Some n ->
  d !! "description" = Some ds ->
  d !! "price" = Some (PyFloat (Float64.Fin s m e)) ->
  0 <= m ->
  half_up_cents (Float64.magnitude m e) < 10 ^ 28 ->
  price (deserialize (PyDict d) self).1
  = PyDecimal (Decimal.Finite s (half_up_cents (Float64.magnitude m e)) (-2)).
Proof.
  intros Hn Hds Hp Hm Hb.
  assert (Hnum : numeric_value (PyFloat (Float64.Fin s m e))
                 = Some (s, Float64.magnitude m e)).
  { simpl. rewrite (proj2 (Z.leb_le 0 m) Hm). reflexivity. }
  destruct (quantize_numeric _ _ _ Hnum Hb) as [Hq _].
  rewrite deserialize_unfold. cbn [getitem].
  rewrite Hn, Hds, Hp. cbn [mbind result_bind] in *. rewrite Hq. cbv zeta.
  destruct (d !! "available") as [a |]; [| reflexivity].
  destruct (isinstance_bool a); [| reflexivity].
  destruct (d !! "category") as [c |]; [| reflexivity].
  cbn [mbind result_bind]. destruct (Category_getattr c); reflexivity.
Qed.

(** C2 (amended).  [deserialize] converts a float price exactly and
    quantizes it to 2 decimals, ties going up: the float 12.345 is stored
    as 12.35 and the float 0.125, an exact tie, as 0.13.  [serialize]
    renders [round(float(price), 2)]: a price held at 2 decimals comes out
    as the float nearest to it, and a record holding 12.505 comes out as
    12.51, the float nearest to 12.505 lying above the tie. *)
Theorem price_rounding_on_both_paths :
  (forall (d : gmap string PyValue) self n ds s m e,
      d !! "name" = Some n ->
      d !! "description" = Some ds ->
      d !! "price" = Some (PyFloat (Float64.Fin s m e)) ->
      0 <= m ->
      half_up_cents (Float64.magnitude m e) < 10 ^ 28 ->
      price (deserialize (PyDict d) self).1
      = PyDecimal (Decimal.Finite s (half_up_cents (Float64.magnitude m e)) (-2)))
  /\ (forall (d : gmap string PyValue) self n ds,
      d !! "name" = Some n ->
      d !! "description" = Some ds ->
      d !! "price" = Some (PyFloat float_12_345) ->
      price (deserialize (PyDict d) self).1
      = PyDecimal (Decimal.Finite false 1235 (-2)))
  /\ (forall (d : gmap string PyValue) self n ds,
      d !! "name" = Some n ->
      d !! "description" = Some ds ->
      d !! "price" = Some (PyFloat float_0_125) ->
      price (deserialize (PyDict d) self).1
      = PyDecimal (Decimal.Finite false 13 (-2)))
  /\ (forall self s c cat,
      price self = PyDecimal (Decimal.Finite s c (-2)) ->
      category self = PyEnum cat ->
      0 <= c < 10 ^ 28 ->
      (out ← serialize self; getitem out "price")
      = Ok (PyFloat (float_of_cents s c)))
  /\ (forall self cat,
      price self = PyDecimal (Decimal.Finite false 12505 (-3)) ->
      category self = PyEnum cat ->
      (out ← serialize self; getitem out "price")
      = Ok (PyFloat (float_of_cents false 1251))).
Proof.
  split; [exact deserialize_float_price |].
  split.
  { intros d self n ds Hn Hds Hp.
    rewrite (deserialize_float_price d self n ds _ _ _ Hn Hds Hp);
      [reflexivity | discriminate | reflexivity]. }
  split.
  { intros d self n ds Hn Hds Hp.
    rewrite (deserialize_float_price d self n ds _ _ _ Hn Hds Hp);
      [reflexivity | discriminate | reflexivity]. }
  split.
  { intros self s c cat Hp Hc Hb.
    destruct (py_float_cents s c Hb) as (x & Hx & Hr). rewrite <- Hp in Hx.
    rewrite (serialize_ok self x cat Hx Hc), Hr. reflexivity. }
  intros self cat Hp Hc.
  erewrite serialize_ok; [| rewrite Hp; reflexivity | exact Hc].
  vm_compute. reflexivity.
Qed.

(** Both paths at 12.345 and 12.505. *)
Lemma price_rounding_on_both_paths_witness :
  (product_mapping (PyStr "Fedora") (PyStr "A red hat") (PyFloat float_12_345)
     (PyBool true) (PyStr "CLOTHS")) !! "price" = Some (PyFloat float_12_345)
  /\ price (deserialize
              (PyDict (product_mapping (PyStr "Fedora") (PyStr "A red hat")
                         (PyFloat float_12_345) (PyBool true) (PyStr "CLOTHS")))
              new_Product).1
     = PyDecimal (Decimal.Finite false 1235 (-2))
  /\ (out ← serialize (mkProduct PyNone (PyStr "Fedora") (PyStr "A red hat")
                         (PyDecimal (Decimal.Finite false 12505 (-3)))
                         (PyBool true) (PyEnum CLOTHS));
      getitem out "price")
     = Ok (PyFloat (float_of_cents false 1251)).
Proof.
  split; [reflexivity |]. split.
  - apply (proj1 (proj2 price_rounding_on_both_paths) _ new_Product
             (PyStr "Fedora") (PyStr "A red hat")); reflexivity.
  - apply (proj2 (proj2 (proj2 (proj2 price_rounding_on_both_paths))) _ CLOTHS);
      reflexivity.
Defined.

(** C2 as stated fails on the [serialize] path: a record holding 0.125
    is rendered as 0.12, the even neighbour, where half up gives 0.13. *)
Lemma serialize_is_not_half_up :
  half_up_cents (Decimal.magnitude 125 (-3)) = 13
  /\ (out ← serialize (mkProduct PyNone (PyStr "Fedora") (PyStr "A red hat")
                         (PyDecimal (Decimal.Finite false 125 (-3)))
                         (PyBool true) (PyEnum CLOTHS));
      getitem out "price")
     = Ok (PyFloat (float_of_cents false 12))
  /\ float_of_cents false 12 <> float_of_cents false 13.
Proof.
  split; [reflexivity |]. split; [vm_compute; reflexivity |].
  vm_compute. discriminate.
Qed.






(** C5 (amended).  In a mapping whose name, description and price steps
    succeed, a value under [available] that is not a strict boolean makes
    [deserialize] fail with the [DataValidationError] message naming its
    type, the record keeping its former [available]; a strict boolean is
    stored unchanged. *)
Theorem available_must_be_strict_boolean
    (d : gmap string PyValue) (self : Product) n ds p q a :
  d !! "name" = Some n ->
  d !! "description" = Some ds ->
  d !! "price" = Some p ->
  (v ← price_value p; Decimal.quantize v Decimal.cent) = Ok q ->
  d !! "available" = Some a ->
  (isinstance_bool a = false ->
   deserialize (PyDict d) self
   = (mkProduct (id self) n ds (PyDecimal q) (available self) (category self),
      Raise (DataValidationError
               ("Invalid type for boolean [available]: " ++ str_type a))))
  /\ (isinstance_bool a = true ->
      available (deserialize (PyDict d) self).1 = a).
Proof.
  intros Hn Hds Hp Hq Ha. rewrite deserialize_unfold. cbn [getitem].
  rewrite Hn, Hds, Hp, Ha. cbn [mbind result_bind] in *. rewrite Hq.
  split; intros Hb; rewrite Hb; [reflexivity |].
  cbv zeta. destruct (d !! "category") as [c |]; [| reflexivity].
  cbn [mbind result_bind]. destruct (Category_getattr c); reflexivity.
Qed.

(** The text [yes] and the integer 1 are refused; [False] is stored. *)
Lemma available_must_be_strict_boolean_witness :
  (v ← price_value (PyInt 10); Decimal.quantize v Decimal.cent)
  = Ok (Decimal.Finite false 1000 (-2))
  /\ isinstance_bool (PyStr "yes") = false
  /\ isinstance_bool (PyInt 1) = false
  /\ deserialize
       (PyDict (product_mapping (PyStr "Test") (PyStr "Test") (PyInt 10)
                  (PyStr "yes") (PyStr "FOOD")))
       new_Product
     = (mkProduct PyNone (PyStr "Test") (PyStr "Test")
          (PyDecimal (Decimal.Finite false 1000 (-2))) PyNone PyNone,
        Raise (DataValidationError
                 ("Invalid type for boolean [available]: " ++ str_type (PyStr "yes"))))
  /\ deserialize
       (PyDict (product_mapping (PyStr "Test") (PyStr "Test") (PyInt 10)
                  (PyInt 1) (PyStr "FOOD")))
       new_Product
     = (mkProduct PyNone (PyStr "Test") (PyStr "Test")
          (PyDecimal (Decimal.Finite false 1000 (-2))) PyNone PyNone,
        Raise (DataValidationError
                 ("Invalid type for boolean [available]: " ++ str_type (PyInt 1))))
  /\ available
       (deserialize
          (PyDict (product_mapping (PyStr "Test") (PyStr "Test") (PyInt 10)
                     (PyBool false) (PyStr "FOOD")))
          new_Product).1
     = PyBool false.
Proof.
  split; [reflexivity |]. split; [reflexivity |]. split; [reflexivity |].
  split; [| split].
  - apply (proj1 (available_must_be_strict_boolean
                    (product_mapping (PyStr "Test") (PyStr "Test") (PyInt 10)
                       (PyStr "yes") (PyStr "FOOD"))
                    new_Product (PyStr "Test")
                    (PyStr "Test") (PyInt 10) (Decimal.Finite false 1000 (-2))
                    (PyStr "yes") eq_refl eq_refl eq_refl eq_refl eq_refl)).
    reflexivity.
  - apply (proj1 (available_must_be_strict_boolean
                    (product_mapping (PyStr "Test") (PyStr "Test") (PyInt 10)
                       (PyInt 1) (PyStr "FOOD"))
                    new_Product (PyStr "Test")
                    (PyStr "Test") (PyInt 10) (Decimal.Finite false 1000 (-2))
                    (PyInt 1) eq_refl eq_refl eq_refl eq_refl eq_refl)).
    reflexivity.
  - apply (proj2 (available_must_be_strict_boolean
                    (product_mapping (PyStr "Test") (PyStr "Test") (PyInt 10)
                       (PyBool false) (PyStr "FOOD"))
                    new_Product (PyStr "Test")
                    (PyStr "Test") (PyInt 10) (Decimal.Finite false 1000 (-2))
                    (PyBool false) eq_refl eq_refl eq_refl eq_refl eq_refl)).
    reflexivity.
Defined.

(** C5 as stated fails: with no name the message reports the missing key
    and not the type, with a price that is no number the exception is
    [decimal.InvalidOperation], and a strict boolean is not stored when
    an earlier step fails. *)
Lemma available_error_needs_earlier_steps :
  (deserialize (PyDict {[ "available" := PyStr "yes" ]}) new_Product).2
  = Raise (DataValidationError "Invalid product: missing name")
  /\ (deserialize
        (PyDict (product_mapping (PyStr "Test") (PyStr "Test") (PyStr "ten")
                   (PyStr "yes") (PyStr "FOOD")))
        new_Product).2
     = Raise InvalidOperation
  /\ available
       (deserialize (PyDict {[ "available" := PyBool true ]}) new_Product).1
     = PyNone.
Proof. repeat split; vm_compute; reflexivity. Qed.


(** C6.  [deserialize] of the empty mapping, of [None] and of the text
    [not a dict] raises [DataValidationError] and leaves the record as it
    was; every input that is not a mapping gets the "bad or no data"
    message, a mapping without a name the "missing" message, and the two
    messages differ. *)
Theorem deserialize_rejects_malformed_input (self : Product) :
  deserialize (PyDict ∅) self
  = (self, Raise (DataValidationError (missing_prefix ++ "name")))
  /\ (exists msg,
       deserialize PyNone self
       = (self, Raise (DataValidationError (bad_data_prefix ++ msg))))
  /\ (exists msg,
       deserialize (PyStr "not a dict") self
       = (self, Raise (DataValidationError (bad_data_prefix ++ msg))))
  /\ (forall data,
       is_mapping data = false ->
       exists msg,
         deserialize data self
         = (self, Raise (DataValidationError (bad_data_prefix ++ msg))))
  /\ (forall d : gmap string PyValue,
       d !! "name" = None ->
       deserialize (PyDict d) self
       = (self, Raise (DataValidationError (missing_prefix ++ "name"))))
  /\ (forall msg key : string,
       (bad_data_prefix ++ msg)%string <> (missing_prefix ++ key)%string).
Proof.
  assert (Hnon : forall data, is_mapping data = false ->
            exists msg, deserialize data self
              = (self, Raise (DataValidationError (bad_data_prefix ++ msg)))).
  { intros data Hd. rewrite deserialize_unfold.
    destruct data; try discriminate; cbn [getitem deserialize_handler];
      eexists; reflexivity. }
  assert (Hmiss : forall d : gmap string PyValue, d !! "name" = None ->
            deserialize (PyDict d) self
            = (self, Raise (DataValidationError (missing_prefix ++ "name")))).
  { intros d Hd. rewrite deserialize_unfold. cbn [getitem]. rewrite Hd. reflexivity. }
  split; [apply Hmiss; reflexivity |].
  split; [apply Hnon; reflexivity |].
  split; [apply Hnon; reflexivity |].
  split; [exact Hnon |]. split; [exact Hmiss |].
  intros msg key H. unfold bad_data_prefix, missing_prefix in H.
  cbn [String.append] in H. discriminate H.
Qed.

(** An integer input, and a mapping holding only a description. *)
Lemma deserialize_rejects_malformed_input_witness :
  is_mapping (PyInt 5) = false
  /\ (exists msg,
       deserialize (PyInt 5) new_Product
       = (new_Product, Raise (DataValidationError (bad_data_prefix ++ msg))))
  /\ ({[ "description" := PyStr "Missing name" ]} : gmap string PyValue) !! "name" = None
  /\ deserialize (PyDict {[ "description" := PyStr "Missing name" ]}) new_Product
     = (new_Product, Raise (DataValidationError (missing_prefix ++ "name"))).
Proof.
  split; [reflexivity |]. split.
  - apply (proj1 (proj2 (proj2 (proj2 (deserialize_rejects_malformed_input new_Product))))).
    reflexivity.
  - split; [reflexivity |].
    apply (proj1 (proj2 (proj2 (proj2 (proj2
             (deserialize_rejects_malformed_input new_Product)))))).
    reflexivity.
Defined.

(** C7 (amended).  After a successful [deserialize], the record's name is
    the value the mapping holds under [name], whatever it is. *)
Theorem deserialize_stores_name_as_given data self r :
  (deserialize data self).2 = Ok r ->
  getitem data "name" = Ok (name r).
Proof.
  rewrite deserialize_unfold. cbv zeta.
  destruct (getitem data "name") as [n | e1]; [| discriminate].
  destruct (getitem data "description") as [ds | e2]; [| discriminate].
  destruct (getitem data "price" ≫= _) as [q | e3]; [| discriminate].
  destruct (getitem data "available") as [a | e4]; [| discriminate].
  destruct (isinstance_bool a); [| discriminate].
  destruct (getitem data "category" ≫= _) as [m | e5]; [| discriminate].
  cbn [snd]. intros H. injection H as <-. reflexivity.
Qed.

(** A mapping whose name is the empty text. *)
Lemma deserialize_stores_name_as_given_witness :
  (deserialize
     (PyDict (product_mapping (PyStr "") (PyStr "Test") (PyInt 10)
                (PyBool true) (PyStr "FOOD")))
     new_Product).2
  = Ok (mkProduct PyNone (PyStr "") (PyStr "Test")
          (PyDecimal (Decimal.Finite false 1000 (-2))) (PyBool true) (PyEnum FOOD))
  /\ getitem
       (PyDict (product_mapping (PyStr "") (PyStr "Test") (PyInt 10)
                  (PyBool true) (PyStr "FOOD")))
       "name"
     = Ok (name (mkProduct PyNone (PyStr "") (PyStr "Test")
                   (PyDecimal (Decimal.Finite false 1000 (-2))) (PyBool true)
                   (PyEnum FOOD))).
Proof.
  split; [reflexivity |].
  apply (deserialize_stores_name_as_given _ new_Product). reflexivity.
Defined.

(** C7 as stated fails: a mapping whose name is the empty text is
    accepted, and the record's name is empty. *)
Lemma deserialize_accepts_empty_name :
  (deserialize
     (PyDict (product_mapping (PyStr "") (PyStr "Test") (PyInt 10)
                (PyBool true) (PyStr "FOOD")))
     new_Product).2
  = Ok (mkProduct PyNone (PyStr "") (PyStr "Test")
          (PyDecimal (Decimal.Finite false 1000 (-2))) (PyBool true) (PyEnum FOOD)).
Proof. vm_compute. reflexivity. Qed.

(** C8.  [update] on a record whose [id] is [None] raises
    [DataValidationError] and leaves the store as it was; when [update]
    succeeds the record carries an id. *)
Theorem update_requires_id (bind : Product -> option Row) self db :
  (id self = PyNone ->
   update bind self db
   = (db, Raise (DataValidationError "Update called with empty ID field")))
  /\ ((update bind self db).2 = Ok tt -> truthy (id self) = true /\ id self <> PyNone).
Proof.
  unfold update. split.
  - intros ->. reflexivity.
  - destruct (truthy (id self)) eqn:E; cbn [negb].
    + intros _. split; [reflexivity |]. intros C. rewrite C in E. discriminate.
    + cbn [snd]. discriminate.
Qed.

(** The record without an id is refused; with the id of the stored row
    it is saved. *)
Lemma update_requires_id_witness :
  id fedora = PyNone
  /\ update typed_bind fedora one_row
     = (one_row, Raise (DataValidationError "Update called with empty ID field"))
  /\ (update typed_bind (set_id (PyInt 1) fedora).1 one_row).2 = Ok tt
  /\ truthy (id (set_id (PyInt 1) fedora).1) = true.
Proof.
  split; [reflexivity |]. split.
  - apply (proj1 (update_requires_id typed_bind fedora one_row)). reflexivity.
  - split; [reflexivity |].
    apply (proj2 (update_requires_id typed_bind (set_id (PyInt 1) fedora).1 one_row)).
    reflexivity.
Defined.




Section Strip.
Import Text.

Lemma lstrip_app p pre l :
  forallb p pre = true -> lstrip p (pre ++ l) = lstrip p l.
Proof.
  induction pre as [| c pre IH]; intros H; [reflexivity |].
  simpl in *. apply andb_prop in H as [Hc Hp]. rewrite Hc. apply IH, Hp.
Qed.

Lemma forallb_rev_true (p : ascii -> bool) l :
  forallb p l = true -> forallb p (rev l) = true.
Proof.
  induction l as [| c l IH]; intros H; [reflexivity |].
  simpl in *. apply andb_prop in H as [Hc Hl].
  rewrite forallb_app, (IH Hl). simpl. rewrite Hc. reflexivity.
Qed.

Lemma lstrip_length p l : (length (lstrip p l) <= length l)%nat.
Proof.
  induction l as [| c l IH]; simpl; [lia |].
  destruct (p c); simpl; lia.
Qed.

Lemma lstrip_fixed_head p c l : lstrip p (c :: l) = c :: l -> p c = false.
Proof.
  simpl. destruct (p c); [| reflexivity]. intros H.
  pose proof (lstrip_length p l) as Hl. rewrite H in Hl. simpl in Hl. lia.
Qed.

(** [strip] removes exactly the surrounding run of stripped characters. *)
Lemma strip_surrounding p pre core post :
  forallb p pre = true -> forallb p post = true ->
  lstrip p core = core -> lstrip p (rev core) = rev core ->
  strip p (pre ++ core ++ post) = core.
Proof.
  intros Hpre Hpost Hc Hr. unfold strip.
  rewrite lstrip_app by exact Hpre.
  destruct core as [| c core'].
  - assert (E : lstrip p post = []).
    { rewrite <- (app_nil_r post). rewrite lstrip_app by exact Hpost. reflexivity. }
    cbn [app]. rewrite E. reflexivity.
  - assert (Hhead : lstrip p ((c :: core') ++ post) = (c :: core') ++ post).
    { cbn [app lstrip]. rewrite (lstrip_fixed_head p c core' Hc). reflexivity. }
    rewrite Hhead, rev_app_distr.
    rewrite lstrip_app by (apply forallb_rev_true; exact Hpost).
    rewrite Hr. apply rev_involutive.
Qed.
End Strip.




(* ================================================================== *)
(** * Further properties of the codec *)
(* ================================================================== *)

(** X1.  On a mapping that holds [name] and lacks a later key,
    [deserialize] raises [DataValidationError] with the message
    "Invalid product: missing " followed by the first key, in reading
    order (description, price, available, category), that the mapping
    lacks; the fields read before it are assigned. *)
Theorem deserialize_reports_first_missing_key (d : gmap string PyValue) self :
  (forall n,
      d !! "name" = Some n -> d !! "description" = None ->
      deserialize (PyDict d) self
      = (mkProduct (id self) n (description self) (price self) (available self)
           (category self),
         Raise (DataValidationError (missing_prefix ++ "description"))))
  /\ (forall n ds,
      d !! "name" = Some n -> d !! "description" = Some ds ->
      d !! "price" = None ->
      deserialize (PyDict d) self
      = (mkProduct (id self) n ds (price self) (available self) (category self),
         Raise (DataValidationError (missing_prefix ++ "price"))))
  /\ (forall n ds p q,
      d !! "name" = Some n -> d !! "description" = Some ds ->
      d !! "price" = Some p ->
      (v ← price_value p; Decimal.quantize v Decimal.cent) = Ok q ->
      d !! "available" = None ->
      deserialize (PyDict d) self
      = (mkProduct (id self) n ds (PyDecimal q) (available self) (category self),
         Raise (DataValidationError (missing_prefix ++ "available"))))
  /\ (forall n ds p q b,
      d !! "name" = Some n -> d !! "description" = Some ds ->
      d !! "price" = Some p ->
      (v ← price_value p; Decimal.quantize v Decimal.cent) = Ok q ->
      d !! "available" = Some (PyBool b) ->
      d !! "category" = None ->
      deserialize (PyDict d) self
      = (mkProduct (id self) n ds (PyDecimal q) (PyBool b) (category self),
         Raise (DataValidationError (missing_prefix ++ "category")))).
Proof.
  repeat split; intros; rewrite deserialize_unfold; cbn [getitem];
    repeat match goal with H : d !! _ = _ |- _ => rewrite H; clear H end;
    cbn [mbind result_bind] in *;
    repeat match goal with H : _ = Ok _ |- _ => rewrite H; clear H end;
    reflexivity.
Qed.

(** A mapping with a name only reports the description. *)
Lemma deserialize_reports_first_missing_key_witness :
  deserialize
    (PyDict {[ "name" := PyStr "Hat"; "description" := PyStr "Red" ]}) new_Product
  = (mkProduct PyNone (PyStr "Hat") (PyStr "Red") PyNone PyNone PyNone,
     Raise (DataValidationError (missing_prefix ++ "price"))).
Proof.
  apply (proj1 (proj2 (deserialize_reports_first_missing_key
                         {[ "name" := PyStr "Hat"; "description" := PyStr "Red" ]}
                         new_Product))); reflexivity.
Defined.













(** X4.  [deserialize] never touches the id, and a successful call
    overwrites the five other fields with values that depend on the
    mapping alone: the record returned is the record after the call, the
    same mapping gives the same five fields on any other record, and
    deserializing it again changes nothing. *)
Theorem deserialize_overwrites_every_field data self r :
  (deserialize data self).2 = Ok r ->
  id r = id self
  /\ (deserialize data self).1 = r
  /\ (forall other,
       deserialize data other
       = (mkProduct (id other) (name r) (description r) (price r) (available r)
            (category r),
          Ok (mkProduct (id other) (name r) (description r) (price r)
                (available r) (category r))))
  /\ deserialize data r = (r, Ok r).
Proof.
  intros H.
  assert (G : forall other,
             deserialize data other
             = (mkProduct (id other) (name r) (description r) (price r)
                  (available r) (category r),
                Ok (mkProduct (id other) (name r) (description r) (price r)
                      (available r) (category r)))
             /\ (other = self -> id r = id self /\ (deserialize data self).1 = r)).
  { intros other. revert H. rewrite !deserialize_unfold. cbv zeta.
    destruct (getitem data "name") as [n | e1]; [| discriminate].
    destruct (getitem data "description") as [ds | e2]; [| discriminate].
    destruct (getitem data "price" ≫= _) as [q | e3]; [| discriminate].
    destruct (getitem data "available") as [a | e4]; [| discriminate].
    destruct (isinstance_bool a); [| discriminate].
    destruct (getitem data "category" ≫= _) as [m | e5]; [| discriminate].
    cbn [snd fst]. intros H. injection H as <-. split; [reflexivity |].
    intros ->. split; reflexivity. }
  destruct (G self) as [_ G2]. destruct (G2 eq_refl) as [G3 G4].
  split; [exact G3 |]. split; [exact G4 |]. split; [intros other; apply G |].
  destruct (G r) as [G5 _]. rewrite G5. destruct r; reflexivity.
Qed.

(** A record that carries a key keeps it. *)
Lemma deserialize_overwrites_every_field_witness :
  (deserialize
     (PyDict (product_mapping (PyStr "Hat") (PyStr "Red") (PyStr "9.5")
                (PyBool true) (PyStr "CLOTHS")))
     fedora_1).2
  = Ok (mkProduct (PyInt 1) (PyStr "Hat") (PyStr "Red")
          (PyDecimal (Decimal.Finite false 950 (-2))) (PyBool true) (PyEnum CLOTHS))
  /\ deserialize
       (PyDict (product_mapping (PyStr "Hat") (PyStr "Red") (PyStr "9.5")
                  (PyBool true) (PyStr "CLOTHS")))
       (mkProduct (PyInt 1) (PyStr "Hat") (PyStr "Red")
          (PyDecimal (Decimal.Finite false 950 (-2))) (PyBool true) (PyEnum CLOTHS))
     = (mkProduct (PyInt 1) (PyStr "Hat") (PyStr "Red")
          (PyDecimal (Decimal.Finite false 950 (-2))) (PyBool true) (PyEnum CLOTHS),
        Ok (mkProduct (PyInt 1) (PyStr "Hat") (PyStr "Red")
              (PyDecimal (Decimal.Finite false 950 (-2))) (PyBool true)
              (PyEnum CLOTHS))).
Proof.
  split; [reflexivity |].
  apply (deserialize_overwrites_every_field _ fedora_1). reflexivity.
Defined.

Lemma rescale_half_up_shape s c e ee :
  exists c', Decimal.rescale_half_up s c e ee = Decimal.Finite s c' ee.
Proof.
  unfold Decimal.rescale_half_up.
  destruct (c =? 0); [eauto |]. destruct (ee <=? e); [eauto |].
  destruct (_ <? 0); eauto.
Qed.

Lemma quantize_cent_shape v q :
  Decimal.quantize v Decimal.cent = Ok q ->
  (exists s c, q = Decimal.Finite s c (-2) /\ Decimal.num_digits c <= 28)
  \/ (exists s d, q = Decimal.NaN s false d).
Proof.
  destruct v as [s c e | s | s [|] d]; cbn [Decimal.quantize Decimal.cent];
    try discriminate.
  - change (negb ((Decimal.Etiny <=? -2) && (-2 <=? Decimal.Emax))) with false.
    cbv iota. destruct (c =? 0).
    { intros H. injection H as <-. left. exists s, 0. split; [reflexivity |].
      vm_compute. discriminate. }
    destruct (Decimal.Emax <? _); [discriminate |].
    destruct (Decimal.prec <? _); [discriminate |].
    destruct (rescale_half_up_shape s c e (-2)) as [c' ->].
    destruct (Decimal.Emax <? _); [discriminate |].
    destruct (Decimal.prec <? Decimal.num_digits c') eqn:E; [discriminate |].
    intros H. injection H as <-. left. exists s, c'. split; [reflexivity |].
    apply Z.ltb_ge in E. exact E.
  - intros H. injection H as <-. right. eauto.
Qed.

(** X5.  After a successful [deserialize], [available] is a boolean and
    the price is a [Decimal] with exponent -2 and at most 28 digits, or
    a quiet NaN, which [quantize] lets through. *)
Theorem deserialize_stores_cents_and_flag data self r :
  (deserialize data self).2 = Ok r ->
  (exists b, available r = PyBool b)
  /\ ((exists s c,
         price r = PyDecimal (Decimal.Finite s c (-2))
         /\ Decimal.num_digits c <= 28)
      \/ (exists s d, price r = PyDecimal (Decimal.NaN s false d))).
Proof.
  rewrite deserialize_unfold. cbv zeta.
  destruct (getitem data "name") as [n | e1]; [| discriminate].
  destruct (getitem data "description") as [ds | e2]; [| discriminate].
  destruct (getitem data "price") as [raw | e3]; [| discriminate].
  cbn [mbind result_bind].
  destruct (price_value raw) as [v | e4]; [| discriminate].
  cbn [mbind result_bind].
  destruct (Decimal.quantize v Decimal.cent) as [q | e5] eqn:Eq; [| discriminate].
  destruct (getitem data "available") as [a | e6]; [| discriminate].
  destruct a; cbn [isinstance_bool]; try discriminate.
  destruct (getitem data "category" ≫= _) as [m | e7]; [| discriminate].
  cbn [snd]. intros H. injection H as <-. cbn.
  split; [eauto |].
  destruct (quantize_cent_shape _ _ Eq) as [(s & c & -> & Hc) | (s & d & ->)]; eauto.
Qed.

(** The price text "NaN" is accepted and stored as a NaN. *)
Lemma deserialize_stores_cents_and_flag_witness :
  (deserialize
     (PyDict (product_mapping (PyStr "Hat") (PyStr "Red") (PyStr "NaN")
                (PyBool true) (PyStr "CLOTHS")))
     new_Product).2
  = Ok (mkProduct PyNone (PyStr "Hat") (PyStr "Red")
          (PyDecimal (Decimal.NaN false false 0)) (PyBool true) (PyEnum CLOTHS))
  /\ (exists b,
       available (mkProduct PyNone (PyStr "Hat") (PyStr "Red")
                    (PyDecimal (Decimal.NaN false false 0)) (PyBool true)
                    (PyEnum CLOTHS)) = PyBool b).
Proof.
  split; [reflexivity |].
  apply (deserialize_stores_cents_and_flag
           (PyDict (product_mapping (PyStr "Hat") (PyStr "Red") (PyStr "NaN")
                      (PyBool true) (PyStr "CLOTHS")))
           new_Product).
  reflexivity.
Defined.

(** X6.  A category that is not a text is rejected through the
    [TypeError] clause: when the four steps before it succeed,
    [deserialize] raises [DataValidationError] with the bad-data prefix
    followed by the message of [getattr], which names the type; the four
    fields are assigned by then. *)
Theorem deserialize_category_must_be_text (d : gmap string PyValue) self n ds p q b v :
  d !! "name" = Some n ->
  d !! "description" = Some ds ->
  d !! "price" = Some p ->
  (x ← price_value p; Decimal.quantize x Decimal.cent) = Ok q ->
  d !! "available" = Some (PyBool b) ->
  d !! "category" = Some v ->
  isinstance_str v = false ->
  deserialize (PyDict d) self
  = (mkProduct (id self) n ds (PyDecimal q) (PyBool b) (category self),
     Raise (DataValidationError
              (bad_data_prefix ++ "attribute name must be string, not '"
               ++ type_name v ++ "'"))).
Proof.
  intros Hn Hds Hp Hq Ha Hc Hv. rewrite deserialize_unfold. cbn [getitem].
  rewrite Hn, Hds, Hp, Ha, Hc. cbn [mbind result_bind] in *. rewrite Hq.
  cbn [isinstance_bool]. destruct v; try discriminate; reflexivity.
Qed.

(** The category 2, the value of FOOD instead of its name. *)
Lemma deserialize_category_must_be_text_witness :
  isinstance_str (PyInt 2) = false
  /\ deserialize
       (PyDict (product_mapping (PyStr "Hat") (PyStr "Red") (PyInt 10)
                  (PyBool true) (PyInt 2)))
       new_Product
     = (mkProduct PyNone (PyStr "Hat") (PyStr "Red")
          (PyDecimal (Decimal.Finite false 1000 (-2))) (PyBool true) PyNone,
        Raise (DataValidationError
                 (bad_data_prefix ++ "attribute name must be string, not '"
                  ++ type_name (PyInt 2) ++ "'"))).
Proof.
  split; [reflexivity |].
  apply (deserialize_category_must_be_text
           (product_mapping (PyStr "Hat") (PyStr "Red") (PyInt 10)
              (PyBool true) (PyInt 2))
           new_Product (PyStr "Hat") (PyStr "Red") (PyInt 10)
           (Decimal.Finite false 1000 (-2)) true (PyInt 2)); reflexivity.
Defined.

Section Restores.
Import DecimalFacts Float64Facts NumberFacts.

Lemma float_of_cents_recovers s c :
  0 <= c < 100 * 2 ^ 46 ->
  exists m e,
    float_of_cents s c = Float64.Fin s m e
    /\ 0 <= m
    /\ half_up_cents (Float64.magnitude m e) = c.
Proof.
  intros Hc. unfold float_of_cents.
  destruct (Z.eq_dec c 0) as [-> | Hc0].
  { exists 0, Float64.min_exp. split; [destruct s; vm_compute; reflexivity |].
    split; [lia | vm_compute; reflexivity]. }
  set (q := (inject_Z c / 100)%Q).
  assert (Hq100 : (q * 100 == inject_Z c)%Q) by (unfold q; field).
  assert (HK1 : (1 <= inject_Z c)%Q).
  { change 1%Q with (inject_Z 1). rewrite <- Zle_Qle. lia. }
  assert (HK2 : (inject_Z c < 7036874417766400)%Q).
  { change 7036874417766400%Q with (inject_Z (100 * 2 ^ 46)).
    rewrite <- Zlt_Qlt. lia. }
  assert (Hlo : (Float64.pow2 (Float64.min_exp + 52) <= q)%Q).
  { apply Qle_trans with (1 # 100)%Q; [vm_compute; discriminate | lra]. }
  assert (Hq : (0 < q)%Q) by lra.
  destruct (floor_log2_spec q Hq) as [G1 G2].
  assert (Hfl : Float64.floor_log2 q < 46).
  { apply pow2_lt_inv. apply Qle_lt_trans with q; [exact G1 |].
    apply Qlt_le_trans with 70368744177664%Q; [lra |].
    vm_compute. discriminate. }
  assert (Hhi : Float64.floor_log2 q - 52 < Float64.max_exp)
    by (unfold Float64.max_exp; lia).
  destruct (nearest_normal s q Hlo Hhi) as (m & e & Hn & Hm & He & E1 & E2).
  exists m, e. split; [exact Hn |]. split; [lia |].
  assert (Hp : (Float64.pow2 (Float64.floor_log2 q - 52) <= 1 # 128)%Q).
  { apply Qle_trans with (Float64.pow2 (-7)); [apply pow2_le; lia |].
    vm_compute. discriminate. }
  pose proof (pow2_pos (Float64.floor_log2 q - 52)) as Hpos.
  unfold half_up_cents. apply Qfloor_unique; lra.
Qed.
End Restores.

(** X7.  [serialize] followed by [deserialize] restores a record: when
    the price is held at 2 decimal places with an amount below
    100 * 2^46 cents, [available] is a boolean and the category is a
    member, [serialize] succeeds and deserializing its result into any
    record gives exactly the name, description, price, availability and
    category that were serialized. *)
Theorem serialize_then_deserialize_restores r other s c a cat :
  price r = PyDecimal (Decimal.Finite s c (-2)) ->
  0 <= c < 100 * 2 ^ 46 ->
  available r = PyBool a ->
  category r = PyEnum cat ->
  exists out : gmap string PyValue,
    serialize r = Ok (PyDict out)
    /\ deserialize (PyDict out) other
       = (mkProduct (id other) (name r) (description r) (price r) (available r)
            (category r),
          Ok (mkProduct (id other) (name r) (description r) (price r)
                (available r) (category r))).
Proof.
  intros Hp Hc Ha Hcat.
  assert (Hc28 : 0 <= c < 10 ^ 28) by lia.
  destruct (py_float_cents s c Hc28) as (x & Hx & Hr). rewrite <- Hp in Hx.
  rewrite (serialize_ok r x cat Hx Hcat), Hr. eexists. split; [reflexivity |].
  destruct (float_of_cents_recovers s c Hc) as (m & e & Hf & Hm & Hh).
  assert (Hnum : numeric_value (PyFloat (float_of_cents s c))
                 = Some (s, Float64.magnitude m e)).
  { rewrite Hf. simpl. rewrite (proj2 (Z.leb_le 0 m) Hm). reflexivity. }
  destruct (quantize_numeric _ _ _ Hnum ltac:(rewrite Hh; lia)) as [Hq _].
  rewrite Hh in Hq.
  rewrite deserialize_unfold. cbn [getitem].
  change (list_to_map _ !! "name") with (Some (name r)).
  change (list_to_map _ !! "description") with (Some (description r)).
  change (list_to_map _ !! "price") with (Some (PyFloat (float_of_cents s c))).
  change (list_to_map _ !! "available") with (Some (available r)).
  change (list_to_map _ !! "category") with (Some (PyStr (Category_name cat))).
  cbn [mbind result_bind] in *. rewrite Hq, Ha. cbn [isinstance_bool].
  rewrite getattr_member, Hp, Hcat. reflexivity.
Qed.

(** The stored Fedora is restored into a fresh record. *)
Lemma serialize_then_deserialize_restores_witness :
  exists out : gmap string PyValue,
    serialize fedora_1 = Ok (PyDict out)
    /\ deserialize (PyDict out) new_Product
       = (mkProduct (id new_Product) (name fedora_1) (description fedora_1)
            (price fedora_1) (available fedora_1) (category fedora_1),
          Ok (mkProduct (id new_Product) (name fedora_1) (description fedora_1)
                (price fedora_1) (available fedora_1) (category fedora_1))).
Proof.
  apply (serialize_then_deserialize_restores fedora_1 new_Product false 1250
           true CLOTHS); [reflexivity | split; [lia | reflexivity]
                          | reflexivity | reflexivity].
Defined.


(** X8.  [serialize] returns a mapping with exactly the six keys, where
    id, name, description and available are the record's own values, the
    price is the rounded float and the category is the name of a member;
    it raises what [float] raises on the price, and otherwise
    [AttributeError] when the category is not a member. *)
Theorem serialize_shape_and_failures r :
  (forall v,
      serialize r = Ok v ->
      exists (out : gmap string PyValue) x cat,
        v = PyDict out
        /\ dom out = serialized_keys
        /\ out !! "id" = Some (id r)
        /\ out !! "name" = Some (name r)
        /\ out !! "description" = Some (description r)
        /\ out !! "available" = Some (available r)
        /\ py_float (price r) = Ok x
        /\ out !! "price" = Some (PyFloat (Float64.py_round x 2))
        /\ category r = PyEnum cat
        /\ out !! "category" = Some (PyStr (Category_name cat)))
  /\ (forall e, py_float (price r) = Raise e -> serialize r = Raise e)
  /\ (forall x,
      py_float (price r) = Ok x ->
      (forall cat, category r <> PyEnum cat) ->
      (forall cls, category r <> PyObject cls) ->
      serialize r
      = Raise (AttributeError
                 ("'" ++ type_name (category r) ++ "' object has no attribute 'name'"))).
Proof.
  split; [| split].
  - intros v. unfold serialize.
    destruct (py_float (price r)) as [x |] eqn:Ex; [| discriminate].
    cbn [mbind result_bind].
    destruct (category r) as [| | | | | | | | cat |] eqn:Ec; try discriminate.
    cbn [getattr_name mbind result_bind]. intros H. injection H as <-.
    eexists _, x, cat. split; [reflexivity |].
    split; [vm_compute; reflexivity |]. repeat split; reflexivity.
  - intros e He. unfold serialize. rewrite He. reflexivity.
  - intros x Hx Hc _. unfold serialize. rewrite Hx. cbn [mbind result_bind].
    destruct (category r) as [| | | | | | | | cat |]; try reflexivity.
    exfalso. exact (Hc cat eq_refl).
Qed.

(** A fresh record has no price to convert; a record whose category is
    the text "FOOD" has no member to name. *)
Lemma serialize_shape_and_failures_witness :
  py_float (price new_Product)
  = Raise (TypeError "float() argument must be a string or a real number, not 'NoneType'")
  /\ serialize new_Product
     = Raise (TypeError "float() argument must be a string or a real number, not 'NoneType'")
  /\ serialize (mkProduct PyNone (PyStr "Hat") (PyStr "Red") (PyInt 3) (PyBool true)
                  (PyStr "FOOD"))
     = Raise (AttributeError "'str' object has no attribute 'name'").
Proof.
  split; [reflexivity |]. split.
  - apply (proj1 (proj2 (serialize_shape_and_failures new_Product))). reflexivity.
  - apply (proj2 (proj2 (serialize_shape_and_failures
                           (mkProduct PyNone (PyStr "Hat") (PyStr "Red") (PyInt 3)
                              (PyBool true) (PyStr "FOOD"))))
             (Float64.Fin false (3 * 2 ^ 51) (-51)));
      [vm_compute; reflexivity | discriminate | discriminate].
Defined.


Lemma member_map_name s cat : member_map !! s = Some cat -> s = Category_name cat.
Proof.
  intros H. apply elem_of_list_to_map_2 in H. cbn in H.
  repeat (apply elem_of_cons in H as [H | H]; [injection H as -> ->; reflexivity |]).
  apply elem_of_nil in H. contradiction.
Qed.

Lemma class_namespace_no_member s v :
  class_namespace !! s = Some v -> is_member v = false.
Proof.
  intros H. apply elem_of_list_to_map_2 in H.
  assert (F : Forall (fun kv : string * PyValue => is_member kv.2 = false)
                (class_constants
                 ++ map (fun '(n, cls) => (n, PyObject cls)) class_objects)).
  { apply Forall_app. split.
    - unfold class_constants. repeat constructor.
    - apply Forall_fmap. apply Forall_forall. intros [n cls] _. reflexivity. }
  rewrite Forall_forall in F. exact (F _ H).
Qed.

Lemma getattr_member_inv v cat :
  Category_getattr v = Ok (PyEnum cat) -> v = PyStr (Category_name cat).
Proof.
  destruct v; cbn [Category_getattr]; try discriminate.
  destruct (member_map !! s) as [c |] eqn:E.
  - intros H. injection H as ->. rewrite (member_map_name _ _ E). reflexivity.
  - destruct (class_namespace !! s) as [w |] eqn:E2; [| discriminate].
    intros H. injection H as ->. apply class_namespace_no_member in E2. discriminate.
Qed.

Lemma serialize_ok_member r v :
  serialize r = Ok v -> exists cat, category r = PyEnum cat.
Proof.
  unfold serialize.
  destruct (py_float (price r)) as [x |]; [| discriminate].
  cbn [mbind result_bind].
  destruct (category r) as [| | | | | | | | cat |]; try discriminate.
  intros _. exists cat. reflexivity.
Qed.

(** X9.  When [deserialize] succeeds and the record can then be
    serialized, the category of the mapping was the name of a member:
    the other class attributes that [getattr] resolves do not survive
    [serialize]. *)
Theorem round_trip_needs_member_category data self r v :
  (deserialize data self).2 = Ok r ->
  serialize r = Ok v ->
  exists cat,
    getitem data "category" = Ok (PyStr (Category_name cat))
    /\ category r = PyEnum cat.
Proof.
  intros Hd Hs.
  destruct (serialize_ok_member r v Hs) as [cat Hc].
  exists cat. split; [| exact Hc].
  revert Hd. rewrite deserialize_unfold. cbv zeta.
  destruct (getitem data "name") as [n | e1]; [| discriminate].
  destruct (getitem data "description") as [ds | e2]; [| discriminate].
  destruct (getitem data "price" ≫= _) as [q | e3]; [| discriminate].
  destruct (getitem data "available") as [a | e4]; [| discriminate].
  destruct (isinstance_bool a); [| discriminate].
  destruct (getitem data "category") as [c |]; [| discriminate].
  cbn [mbind result_bind].
  destruct (Category_getattr c) as [m | e5] eqn:E; [| discriminate].
  cbn [snd]. intros H. injection H as <-. cbn in Hc. subst m.
  rewrite (getattr_member_inv _ _ E). reflexivity.
Qed.

(** The name "TOOLS". *)
Lemma round_trip_needs_member_category_witness :
  (deserialize
     (PyDict (product_mapping (PyStr "Hat") (PyStr "Red") (PyInt 10)
                (PyBool true) (PyStr "TOOLS")))
     new_Product).2
  = Ok (mkProduct PyNone (PyStr "Hat") (PyStr "Red")
          (PyDecimal (Decimal.Finite false 1000 (-2))) (PyBool true) (PyEnum TOOLS))
  /\ exists cat,
      getitem
        (PyDict (product_mapping (PyStr "Hat") (PyStr "Red") (PyInt 10)
                   (PyBool true) (PyStr "TOOLS")))
        "category" = Ok (PyStr (Category_name cat))
      /\ category (mkProduct PyNone (PyStr "Hat") (PyStr "Red")
                     (PyDecimal (Decimal.Finite false 1000 (-2))) (PyBool true)
                     (PyEnum TOOLS)) = PyEnum cat.
Proof.
  split; [reflexivity |].
  eapply (round_trip_needs_member_category _ new_Product); reflexivity.
Defined.

(* ================================================================== *)
(** * Further properties of the store operations *)
(* ================================================================== *)

Section StoreFacts.
Variable bind : Product -> option Row.



Lemma create_ok self db row :
  bind (set_id PyNone self).1 = Some row ->
  create bind self db
  = ((set_id (PyInt (next_id db)) self).1,
     mkDatabase (<[next_id db := row]> (table db)) (next_id db + 1), Ok tt).
Proof. intros H. unfold create, insert. rewrite H. reflexivity. Qed.





End StoreFacts.

Lemma filter_insert_fresh_size (P : Row -> Prop) `{!forall r, Decision (P r)}
    (m : gmap Z Row) i row :
  m !! i = None ->
  size (filter (fun kr : Z * Row => P kr.2) (<[i := row]> m))
  = (size (filter (fun kr : Z * Row => P kr.2) m)
     + length (filter P [row]))%nat.
Proof.
  intros Hi. rewrite map_filter_insert. cbn [snd].
  rewrite filter_cons, filter_nil.
  destruct (decide (P row)) as [Hp | Hp].
  - rewrite map_size_insert_None; [cbn [length]; lia |].
    apply map_lookup_filter_None. left. exact Hi.
  - rewrite delete_id by exact Hi. cbn [length]. lia.
Qed.










Section Batch.
Variable bind : Product -> option Row.


End Batch.



(** X15.  [find_by_availability] without an argument is the query for
    [True]; the query for a boolean returns exactly the rows with that
    availability; the queries for [True] and [False] share no row and
    together give [all]. *)
Theorem availability_queries_split_the_table db :
  find_by_availability None db = find_by_availability (Some true) db
  /\ (forall a i row,
       find_by_availability (Some a) db !! i = Some row
       <-> find i db = Some row /\ row_available row = a)
  /\ find_by_availability (Some true) db ∪ find_by_availability (Some false) db
     = all db
  /\ find_by_availability (Some true) db ##ₘ find_by_availability (Some false) db
  /\ size (all db)
     = (size (find_by_availability (Some true) db)
        + size (find_by_availability (Some false) db))%nat.
Proof.
  unfold find_by_availability, find, all. cbv [from_option Datatypes.id].
  split; [reflexivity |].
  split; [intros a i row; apply map_lookup_filter_Some |].
  assert (D : filter (fun kr : Z * Row => row_available kr.2 = true) (table db)
              ##ₘ filter (fun kr : Z * Row => row_available kr.2 = false) (table db)).
  { apply map_disjoint_spec. intros i x y Hx Hy.
    apply map_lookup_filter_Some in Hx as [Hx Px].
    apply map_lookup_filter_Some in Hy as [Hy Py].
    cbn [snd] in *. congruence. }
  assert (U : filter (fun kr : Z * Row => row_available kr.2 = true) (table db)
              ∪ filter (fun kr : Z * Row => row_available kr.2 = false) (table db)
              = table db).
  { apply map_eq. intros i. apply option_eq. intros x.
    rewrite lookup_union_Some by exact D.
    rewrite !map_lookup_filter_Some. cbn [snd].
    destruct (row_available x); split.
    - intros [[H _] | [H _]]; exact H.
    - intros H. left. split; [exact H | reflexivity].
    - intros [[H _] | [H _]]; exact H.
    - intros H. right. split; [exact H | reflexivity]. }
  split; [exact U |]. split; [exact D |].
  rewrite <- U at 1. apply map_size_disj_union, D.
Qed.


Lemma category_filter_insert (m : gmap Z Row) i row c :
  m !! i = None ->
  size (filter (fun kr : Z * Row => row_category kr.2 = c) (<[i := row]> m))
  = (size (filter (fun kr : Z * Row => row_category kr.2 = c) m)
     + (if decide (row_category row = c) then 1 else 0))%nat.
Proof.
  intros Hi.
  pose proof (filter_insert_fresh_size (fun r => row_category r = c) m i row Hi) as H.
  rewrite (filter_cons _ row []), filter_nil in H.
  rewrite H. destruct (decide (row_category row = c)); reflexivity.
Qed.

Lemma category_size_sum (m : gmap Z Row) :
  size m
  = foldr Nat.add 0%nat
      (map (fun c => size (filter (fun kr : Z * Row => row_category kr.2 = c) m))
         Category_members).
Proof.
  induction m as [| i row m Hi _ IH] using map_first_key_ind.
  - cbn [Category_members map foldr]. rewrite !map_filter_empty, map_size_empty.
    reflexivity.
  - rewrite map_size_insert_None by exact Hi. rewrite IH.
    cbn [Category_members map foldr].
    rewrite !(category_filter_insert _ _ _ _ Hi).
    destruct (row_category row);
      repeat match goal with
             | |- context [decide ?P] => destruct (decide P); [| congruence]
             | |- context [decide ?P] => destruct (decide P); [congruence |]
             end; cbn [length]; lia.
Qed.

(** X16.  [find_by_category] without an argument is the query for
    UNKNOWN; the query for a member returns exactly the rows of that
    category, and is empty, not an error, exactly when no row has it;
    the queries for two members share no row, and their sizes over the
    six members add up to the size of [all]. *)
Theorem category_queries_split_the_table db :
  find_by_category None db = find_by_category (Some UNKNOWN) db
  /\ (forall c i row,
       find_by_category (Some c) db !! i = Some row
       <-> find i db = Some row /\ row_category row = c)
  /\ (forall c1 c2,
       c1 <> c2 -> find_by_category (Some c1) db ##ₘ find_by_category (Some c2) db)
  /\ (forall c,
       find_by_category (Some c) db = ∅
       <-> forall i row, find i db = Some row -> row_category row <> c)
  /\ size (all db) = foldr Nat.add 0%nat (Category_counts db).
Proof.
  unfold Category_counts, find_by_category, find, all.
  cbv [from_option Datatypes.id].
  split; [reflexivity |].
  split; [intros c i row; apply map_lookup_filter_Some |].
  split.
  { intros c1 c2 Hne. apply map_disjoint_spec. intros i x y Hx Hy.
    apply map_lookup_filter_Some in Hx as [Hx Px].
    apply map_lookup_filter_Some in Hy as [Hy Py].
    cbn [snd] in *. congruence. }
  split; [| apply category_size_sum].
  intros c. rewrite map_empty_filter. split.
  - intros H i row Hi. exact (H i row Hi).
  - intros H i row Hi. exact (H i row Hi).
Qed.

Section Quoted.
Import Text.

Lemma lstrip_keeps_last p l c :
  p c = false -> exists l', lstrip p (l ++ [c]) = l' ++ [c].
Proof.
  intros Hc. induction l as [| a l IH].
  - exists []. cbn [app lstrip]. rewrite Hc. reflexivity.
  - cbn [app lstrip]. destruct (p a).
    + exact IH.
    + exists (a :: l). reflexivity.
Qed.

Lemma strip_keeps_head p c l :
  p c = false -> exists l', strip p (c :: l) = c :: l'.
Proof.
  intros Hc. unfold strip. cbn [lstrip]. rewrite Hc. cbn [rev].
  destruct (lstrip_keeps_last p (rev l) c Hc) as [l' ->].
  exists (rev l'). rewrite rev_app_distr. reflexivity.
Qed.

(** A text that starts with a double quote is no numeric literal. *)
Lemma of_string_quoted l :
  Decimal.of_string (text (ascii_of_N 34 :: l)) = Raise InvalidOperation.
Proof.
  unfold Decimal.of_string. rewrite NumberFacts.chars_text.
  destruct (strip_keeps_head is_space (ascii_of_N 34) l eq_refl) as [l' ->].
  reflexivity.
Qed.

End Quoted.

(** X17.  A price text wrapped in double quotes is read by
    [find_by_price] and refused by [deserialize]: for a text that
    [Decimal] reads and that neither starts nor ends with a quote or a
    space, the quoted text queries the same rows as the decimal, while
    [deserialize] of a mapping whose price is the quoted text raises
    [InvalidOperation], with name and description assigned. *)
Theorem quoted_price_is_read_by_the_query_only core d :
  Text.lstrip (Text.is_one_of quote_and_space) core = core ->
  Text.lstrip (Text.is_one_of quote_and_space) (rev core) = rev core ->
  Decimal.of_string (Text.text core) = Ok d ->
  let quoted := Text.text ([ascii_of_N 34] ++ core ++ [ascii_of_N 34]) in
  (forall db,
      find_by_price (PriceText quoted) db = find_by_price (PriceDecimal d) db)
  /\ (forall (m : gmap string PyValue) self n ds,
      m !! "name" = Some n ->
      m !! "description" = Some ds ->
      m !! "price" = Some (PyStr quoted) ->
      deserialize (PyDict m) self
      = (mkProduct (id self) n ds (price self) (available self) (category self),
         Raise InvalidOperation)).
Proof.
  intros Hl Hr Hd quoted. split.
  - intros db. unfold find_by_price, quoted.
    rewrite NumberFacts.chars_text.
    rewrite (strip_surrounding (Text.is_one_of quote_and_space)
               [ascii_of_N 34] core [ascii_of_N 34] eq_refl eq_refl Hl Hr).
    rewrite Hd. reflexivity.
  - intros m self n ds Hn Hds Hp. rewrite deserialize_unfold. cbn [getitem].
    rewrite Hn, Hds, Hp. cbn [mbind result_bind price_value].
    unfold quoted. cbn [app]. rewrite of_string_quoted. reflexivity.
Qed.

(** The text 12.5 between double quotes. *)
Lemma quoted_price_is_read_by_the_query_only_witness :
  Decimal.of_string (Text.text (Text.chars "12.5")) = Ok (Decimal.Finite false 125 (-1))
  /\ find_by_price
       (PriceText (Text.text ([ascii_of_N 34] ++ Text.chars "12.5" ++ [ascii_of_N 34])))
       two_rows
     = Ok {[ 1 := fedora_row ]}
  /\ (deserialize
        (PyDict (product_mapping (PyStr "Hat") (PyStr "Red")
                   (PyStr (Text.text ([ascii_of_N 34] ++ Text.chars "12.5"
                                      ++ [ascii_of_N 34])))
                   (PyBool true) (PyStr "FOOD")))
        new_Product).2
     = Raise InvalidOperation.
Proof.
  split; [reflexivity |].
  destruct (quoted_price_is_read_by_the_query_only (Text.chars "12.5")
              (Decimal.Finite false 125 (-1)) eq_refl eq_refl eq_refl) as [Hq Hd].
  split.
  - rewrite Hq. vm_compute. reflexivity.
  - rewrite (Hd (product_mapping (PyStr "Hat") (PyStr "Red")
                   (PyStr (Text.text ([ascii_of_N 34] ++ Text.chars "12.5"
                                      ++ [ascii_of_N 34])))
                   (PyBool true) (PyStr "FOOD"))
               new_Product (PyStr "Hat") (PyStr "Red") eq_refl eq_refl eq_refl).
    reflexivity.
Defined.
